(** * bmiclient: a two-stage tool router around a completion service

    Shallow embedding of [bmiclient.py]: the prompt builders, the tool-call
    validator [is_valid_tool_call] and the session loop of [run], together
    with the parts of the Python runtime they rest on ([str.strip],
    [str.lower], [repr] of a list of [str], [json.loads]).

    Texts are byte strings: a Python [str] is kept as its UTF-8 encoding,
    and the methods that look at characters ([str.strip], [repr]) read them
    off the bytes, with the white space and the printable characters of
    Unicode 14.0.
    Resource limits of the interpreter (recursion depth, the digit limit of
    [int]) and signals that are not [Exception]s (keyboard interrupt, task
    cancellation) are outside the model. *)

From Stdlib Require Import ZArith NArith List String Ascii Bool Lia.
From Stdlib Require Import DecimalString.
Import ListNotations.
Set Warnings "-register-all".
Local Open Scope string_scope.
Local Open Scope list_scope.

(** ** Python strings *)

Module PyStr.

Definition code (c : ascii) : N := N_of_ascii c.

(** The double quote and the line feed, by their codes. *)
Definition dquote : ascii := "034"%char.
Definition dq : string := String dquote EmptyString.
Definition nl : string := String "010"%char EmptyString.

(** *** Characters

    A text is the UTF-8 encoding of a Python [str]; the methods of [str]
    work on characters, so the model reads a character off the bytes
    wherever a method looks at one. *)

(** The number of bytes of the character a first byte opens, [0] for a
    byte that opens none. *)
Definition char_len (a : ascii) : nat :=
  let x := code a in
  if (x <? 128)%N then 1
  else if (x <? 194)%N then 0
  else if (x <? 224)%N then 2
  else if (x <? 240)%N then 3
  else if (x <? 245)%N then 4
  else 0.

Definition is_cont (b : ascii) : bool :=
  let x := code b in ((128 <=? x) && (x <? 192))%N.

(** The bits of the code point a first byte carries. *)
Definition lead_bits (a : ascii) : N :=
  let x := code a in
  (if x <? 128 then x
   else if x <? 224 then x - 192
   else if x <? 240 then x - 224
   else x - 240)%N.

(** The least code point a character of [n] bytes encodes. *)
Definition least (n : nat) : N :=
  match n with
  | 1 => 0%N
  | 2 => 128%N
  | 3 => 2048%N
  | _ => 65536%N
  end.

(** The character at the head of a text: its code point and its number
    of bytes; [None] at the end of the text and on bytes that encode no
    character. *)
Definition decode_head (s : list ascii) : option (N * nat) :=
  match s with
  | [] => None
  | a :: r =>
      match char_len a with
      | O => None
      | S m =>
          let tail := firstn m r in
          let u := fold_left (fun u b => (u * 64 + (code b - 128))%N) tail
                             (lead_bits a) in
          if (Nat.eqb (List.length tail) m && forallb is_cont tail
              && (least (S m) <=? u)%N && (u <=? 1114111)%N)%bool
          then Some (u, S m)
          else None
      end
  end.

(** The number of bytes that continue a character, counted from the end
    of a text given last byte first; a character has at most three. *)
Fixpoint cont_run (cap : nat) (rs : list ascii) : nat :=
  match cap, rs with
  | S c, b :: r => if is_cont b then S (cont_run c r) else 0
  | _, _ => 0
  end.

(** The character at the end of a text, the text given last byte first. *)
Definition decode_last (rs : list ascii) : option (N * nat) :=
  let w := rev (firstn (S (cont_run 3 rs)) rs) in
  match decode_head w with
  | Some (u, n) => if Nat.eqb n (List.length w) then Some (u, n) else None
  | None => None
  end.

(** *** White space

    The characters [str.strip] removes, those [str.isspace] holds of:
    TAB, LF, VT, FF, CR, the separators FS, GS, RS, US, the space, and
    beyond ASCII U+0085, U+00A0, U+1680, U+2000 to U+200A, U+2028,
    U+2029, U+202F, U+205F and U+3000. *)
Definition is_space (u : N) : bool :=
  ((9 <=? u) && (u <=? 13) || (28 <=? u) && (u <=? 32)
   || (u =? 133) || (u =? 160) || (u =? 5760)
   || (8192 <=? u) && (u <=? 8202)
   || (u =? 8232) || (u =? 8233) || (u =? 8239) || (u =? 8287)
   || (u =? 12288))%N.

(** The number of bytes of the white space a text starts with, [0] when
    it starts with none; and the same at the end of a text given last
    byte first. *)
Definition space_len (s : list ascii) : nat :=
  match decode_head s with
  | Some (u, n) => if is_space u then n else 0
  | None => 0
  end.

Definition space_len_last (rs : list ascii) : nat :=
  match decode_last rs with
  | Some (u, n) => if is_space u then n else 0
  | None => 0
  end.

(** Dropping characters from the head of a text for as long as [f] counts
    the bytes of one there; [k] bytes of the current character are still to
    drop. *)
Fixpoint strip_go (f : list ascii -> nat) (k : nat) (s : list ascii)
  : list ascii :=
  match s with
  | [] => []
  | _ :: r =>
      match k with
      | S k' => strip_go f k' r
      | O => match f s with
             | O => s
             | S n => strip_go f n r
             end
      end
  end.

Definition lstrip (s : list ascii) : list ascii := strip_go space_len 0 s.

Definition rstrip (s : list ascii) : list ascii :=
  rev (strip_go space_len_last 0 (rev s)).

(** [s.strip()] *)
Definition strip (s : string) : string :=
  string_of_list_ascii (rstrip (lstrip (list_ascii_of_string s))).

Definition lower_char (c : ascii) : ascii :=
  let n := code c in
  if ((65 <=? n) && (n <=? 90))%N then ascii_of_N (n + 32) else c.

(** [s.lower()]; on the bytes of a non-ASCII character it is the identity,
    which keeps the test [s.lower() in ("exit", "quit")] exact: the one
    non-ASCII character whose lower case has a letter of these words is
    U+0130, and its lower case is that letter followed by U+0307, so a
    text with it lowers to neither word. *)
Fixpoint lower (s : string) : string :=
  match s with
  | EmptyString => EmptyString
  | String c r => String (lower_char c) (lower r)
  end.

(** *** [repr] *)

Definition hex_digit (n : N) : ascii :=
  if (n <? 10)%N then ascii_of_N (48 + n) else ascii_of_N (87 + n).

(** The last [k] hexadecimal digits of [n]. *)
Fixpoint hex (k : nat) (n : N) : list ascii :=
  match k with
  | O => []
  | S k' => hex k' (n / 16) ++ [hex_digit (n mod 16)]
  end.

Definition has_char (q : ascii) (s : string) : bool :=
  existsb (Ascii.eqb q) (list_ascii_of_string s).

(** The ranges of code points [str.isprintable] rejects, which are those
    [repr] writes as an escape (Unicode 14.0, the tables of CPython
    3.11). *)
Definition not_printable : list (N * N) :=
  [
   (0, 31); (127, 160); (173, 173); (888, 889); (896, 899); (907, 907);
   (909, 909); (930, 930); (1328, 1328); (1367, 1368); (1419, 1420);
   (1424, 1424); (1480, 1487); (1515, 1518); (1525, 1541); (1564, 1564);
   (1757, 1757); (1806, 1807); (1867, 1868); (1970, 1983); (2043, 2044);
   (2094, 2095); (2111, 2111); (2140, 2141); (2143, 2143); (2155, 2159);
   (2191, 2199); (2274, 2274); (2436, 2436); (2445, 2446); (2449, 2450);
   (2473, 2473); (2481, 2481); (2483, 2485); (2490, 2491); (2501, 2502);
   (2505, 2506); (2511, 2518); (2520, 2523); (2526, 2526); (2532, 2533);
   (2559, 2560); (2564, 2564); (2571, 2574); (2577, 2578); (2601, 2601);
   (2609, 2609); (2612, 2612); (2615, 2615); (2618, 2619); (2621, 2621);
   (2627, 2630); (2633, 2634); (2638, 2640); (2642, 2648); (2653, 2653);
   (2655, 2661); (2679, 2688); (2692, 2692); (2702, 2702); (2706, 2706);
   (2729, 2729); (2737, 2737); (2740, 2740); (2746, 2747); (2758, 2758);
   (2762, 2762); (2766, 2767); (2769, 2783); (2788, 2789); (2802, 2808);
   (2816, 2816); (2820, 2820); (2829, 2830); (2833, 2834); (2857, 2857);
   (2865, 2865); (2868, 2868); (2874, 2875); (2885, 2886); (2889, 2890);
   (2894, 2900); (2904, 2907); (2910, 2910); (2916, 2917); (2936, 2945);
   (2948, 2948); (2955, 2957); (2961, 2961); (2966, 2968); (2971, 2971);
   (2973, 2973); (2976, 2978); (2981, 2983); (2987, 2989); (3002, 3005);
   (3011, 3013); (3017, 3017); (3022, 3023); (3025, 3030); (3032, 3045);
   (3067, 3071); (3085, 3085); (3089, 3089); (3113, 3113); (3130, 3131);
   (3141, 3141); (3145, 3145); (3150, 3156); (3159, 3159); (3163, 3164);
   (3166, 3167); (3172, 3173); (3184, 3190); (3213, 3213); (3217, 3217);
   (3241, 3241); (3252, 3252); (3258, 3259); (3269, 3269); (3273, 3273);
   (3278, 3284); (3287, 3292); (3295, 3295); (3300, 3301); (3312, 3312);
   (3315, 3327); (3341, 3341); (3345, 3345); (3397, 3397); (3401, 3401);
   (3408, 3411); (3428, 3429); (3456, 3456); (3460, 3460); (3479, 3481);
   (3506, 3506); (3516, 3516); (3518, 3519); (3527, 3529); (3531, 3534);
   (3541, 3541); (3543, 3543); (3552, 3557); (3568, 3569); (3573, 3584);
   (3643, 3646); (3676, 3712); (3715, 3715); (3717, 3717); (3723, 3723);
   (3748, 3748); (3750, 3750); (3774, 3775); (3781, 3781); (3783, 3783);
   (3790, 3791); (3802, 3803); (3808, 3839); (3912, 3912); (3949, 3952);
   (3992, 3992); (4029, 4029); (4045, 4045); (4059, 4095); (4294, 4294);
   (4296, 4300); (4302, 4303); (4681, 4681); (4686, 4687); (4695, 4695);
   (4697, 4697); (4702, 4703); (4745, 4745); (4750, 4751); (4785, 4785);
   (4790, 4791); (4799, 4799); (4801, 4801); (4806, 4807); (4823, 4823);
   (4881, 4881); (4886, 4887); (4955, 4956); (4989, 4991); (5018, 5023);
   (5110, 5111); (5118, 5119); (5760, 5760); (5789, 5791); (5881, 5887);
   (5910, 5918); (5943, 5951); (5972, 5983); (5997, 5997); (6001, 6001);
   (6004, 6015); (6110, 6111); (6122, 6127); (6138, 6143); (6158, 6158);
   (6170, 6175); (6265, 6271); (6315, 6319); (6390, 6399); (6431, 6431);
   (6444, 6447); (6460, 6463); (6465, 6467); (6510, 6511); (6517, 6527);
   (6572, 6575); (6602, 6607); (6619, 6621); (6684, 6685); (6751, 6751);
   (6781, 6782); (6794, 6799); (6810, 6815); (6830, 6831); (6863, 6911);
   (6989, 6991); (7039, 7039); (7156, 7163); (7224, 7226); (7242, 7244);
   (7305, 7311); (7355, 7356); (7368, 7375); (7419, 7423); (7958, 7959);
   (7966, 7967); (8006, 8007); (8014, 8015); (8024, 8024); (8026, 8026);
   (8028, 8028); (8030, 8030); (8062, 8063); (8117, 8117); (8133, 8133);
   (8148, 8149); (8156, 8156); (8176, 8177); (8181, 8181); (8191, 8207);
   (8232, 8239); (8287, 8303); (8306, 8307); (8335, 8335); (8349, 8351);
   (8385, 8399); (8433, 8447); (8588, 8591); (9255, 9279); (9291, 9311);
   (11124, 11125); (11158, 11158); (11508, 11512); (11558, 11558);
   (11560, 11564); (11566, 11567); (11624, 11630); (11633, 11646);
   (11671, 11679); (11687, 11687); (11695, 11695); (11703, 11703);
   (11711, 11711); (11719, 11719); (11727, 11727); (11735, 11735);
   (11743, 11743); (11870, 11903); (11930, 11930); (12020, 12031);
   (12246, 12271); (12284, 12288); (12352, 12352); (12439, 12440);
   (12544, 12548); (12592, 12592); (12687, 12687); (12772, 12783);
   (12831, 12831); (42125, 42127); (42183, 42191); (42540, 42559);
   (42744, 42751); (42955, 42959); (42962, 42962); (42964, 42964);
   (42970, 42993); (43053, 43055); (43066, 43071); (43128, 43135);
   (43206, 43213); (43226, 43231); (43348, 43358); (43389, 43391);
   (43470, 43470); (43482, 43485); (43519, 43519); (43575, 43583);
   (43598, 43599); (43610, 43611); (43715, 43738); (43767, 43776);
   (43783, 43784); (43791, 43792); (43799, 43807); (43815, 43815);
   (43823, 43823); (43884, 43887); (44014, 44015); (44026, 44031);
   (55204, 55215); (55239, 55242); (55292, 63743); (64110, 64111);
   (64218, 64255); (64263, 64274); (64280, 64284); (64311, 64311);
   (64317, 64317); (64319, 64319); (64322, 64322); (64325, 64325);
   (64451, 64466); (64912, 64913); (64968, 64974); (64976, 65007);
   (65050, 65055); (65107, 65107); (65127, 65127); (65132, 65135);
   (65141, 65141); (65277, 65280); (65471, 65473); (65480, 65481);
   (65488, 65489); (65496, 65497); (65501, 65503); (65511, 65511);
   (65519, 65531); (65534, 65535); (65548, 65548); (65575, 65575);
   (65595, 65595); (65598, 65598); (65614, 65615); (65630, 65663);
   (65787, 65791); (65795, 65798); (65844, 65846); (65935, 65935);
   (65949, 65951); (65953, 65999); (66046, 66175); (66205, 66207);
   (66257, 66271); (66300, 66303); (66340, 66348); (66379, 66383);
   (66427, 66431); (66462, 66462); (66500, 66503); (66518, 66559);
   (66718, 66719); (66730, 66735); (66772, 66775); (66812, 66815);
   (66856, 66863); (66916, 66926); (66939, 66939); (66955, 66955);
   (66963, 66963); (66966, 66966); (66978, 66978); (66994, 66994);
   (67002, 67002); (67005, 67071); (67383, 67391); (67414, 67423);
   (67432, 67455); (67462, 67462); (67505, 67505); (67515, 67583);
   (67590, 67591); (67593, 67593); (67638, 67638); (67641, 67643);
   (67645, 67646); (67670, 67670); (67743, 67750); (67760, 67807);
   (67827, 67827); (67830, 67834); (67868, 67870); (67898, 67902);
   (67904, 67967); (68024, 68027); (68048, 68049); (68100, 68100);
   (68103, 68107); (68116, 68116); (68120, 68120); (68150, 68151);
   (68155, 68158); (68169, 68175); (68185, 68191); (68256, 68287);
   (68327, 68330); (68343, 68351); (68406, 68408); (68438, 68439);
   (68467, 68471); (68498, 68504); (68509, 68520); (68528, 68607);
   (68681, 68735); (68787, 68799); (68851, 68857); (68904, 68911);
   (68922, 69215); (69247, 69247); (69290, 69290); (69294, 69295);
   (69298, 69375); (69416, 69423); (69466, 69487); (69514, 69551);
   (69580, 69599); (69623, 69631); (69710, 69713); (69750, 69758);
   (69821, 69821); (69827, 69839); (69865, 69871); (69882, 69887);
   (69941, 69941); (69960, 69967); (70007, 70015); (70112, 70112);
   (70133, 70143); (70162, 70162); (70207, 70271); (70279, 70279);
   (70281, 70281); (70286, 70286); (70302, 70302); (70314, 70319);
   (70379, 70383); (70394, 70399); (70404, 70404); (70413, 70414);
   (70417, 70418); (70441, 70441); (70449, 70449); (70452, 70452);
   (70458, 70458); (70469, 70470); (70473, 70474); (70478, 70479);
   (70481, 70486); (70488, 70492); (70500, 70501); (70509, 70511);
   (70517, 70655); (70748, 70748); (70754, 70783); (70856, 70863);
   (70874, 71039); (71094, 71095); (71134, 71167); (71237, 71247);
   (71258, 71263); (71277, 71295); (71354, 71359); (71370, 71423);
   (71451, 71452); (71468, 71471); (71495, 71679); (71740, 71839);
   (71923, 71934); (71943, 71944); (71946, 71947); (71956, 71956);
   (71959, 71959); (71990, 71990); (71993, 71994); (72007, 72015);
   (72026, 72095); (72104, 72105); (72152, 72153); (72165, 72191);
   (72264, 72271); (72355, 72367); (72441, 72703); (72713, 72713);
   (72759, 72759); (72774, 72783); (72813, 72815); (72848, 72849);
   (72872, 72872); (72887, 72959); (72967, 72967); (72970, 72970);
   (73015, 73017); (73019, 73019); (73022, 73022); (73032, 73039);
   (73050, 73055); (73062, 73062); (73065, 73065); (73103, 73103);
   (73106, 73106); (73113, 73119); (73130, 73439); (73465, 73647);
   (73649, 73663); (73714, 73726); (74650, 74751); (74863, 74863);
   (74869, 74879); (75076, 77711); (77811, 77823); (78895, 82943);
   (83527, 92159); (92729, 92735); (92767, 92767); (92778, 92781);
   (92863, 92863); (92874, 92879); (92910, 92911); (92918, 92927);
   (92998, 93007); (93018, 93018); (93026, 93026); (93048, 93052);
   (93072, 93759); (93851, 93951); (94027, 94030); (94088, 94094);
   (94112, 94175); (94181, 94191); (94194, 94207); (100344, 100351);
   (101590, 101631); (101641, 110575); (110580, 110580); (110588, 110588);
   (110591, 110591); (110883, 110927); (110931, 110947); (110952, 110959);
   (111356, 113663); (113771, 113775); (113789, 113791); (113801, 113807);
   (113818, 113819); (113824, 118527); (118574, 118575); (118599, 118607);
   (118724, 118783); (119030, 119039); (119079, 119080); (119155, 119162);
   (119275, 119295); (119366, 119519); (119540, 119551); (119639, 119647);
   (119673, 119807); (119893, 119893); (119965, 119965); (119968, 119969);
   (119971, 119972); (119975, 119976); (119981, 119981); (119994, 119994);
   (119996, 119996); (120004, 120004); (120070, 120070); (120075, 120076);
   (120085, 120085); (120093, 120093); (120122, 120122); (120127, 120127);
   (120133, 120133); (120135, 120137); (120145, 120145); (120486, 120487);
   (120780, 120781); (121484, 121498); (121504, 121504); (121520, 122623);
   (122655, 122879); (122887, 122887); (122905, 122906); (122914, 122914);
   (122917, 122917); (122923, 123135); (123181, 123183); (123198, 123199);
   (123210, 123213); (123216, 123535); (123567, 123583); (123642, 123646);
   (123648, 124895); (124903, 124903); (124908, 124908); (124911, 124911);
   (124927, 124927); (125125, 125126); (125143, 125183); (125260, 125263);
   (125274, 125277); (125280, 126064); (126133, 126208); (126270, 126463);
   (126468, 126468); (126496, 126496); (126499, 126499); (126501, 126502);
   (126504, 126504); (126515, 126515); (126520, 126520); (126522, 126522);
   (126524, 126529); (126531, 126534); (126536, 126536); (126538, 126538);
   (126540, 126540); (126544, 126544); (126547, 126547); (126549, 126550);
   (126552, 126552); (126554, 126554); (126556, 126556); (126558, 126558);
   (126560, 126560); (126563, 126563); (126565, 126566); (126571, 126571);
   (126579, 126579); (126584, 126584); (126589, 126589); (126591, 126591);
   (126602, 126602); (126620, 126624); (126628, 126628); (126634, 126634);
   (126652, 126703); (126706, 126975); (127020, 127023); (127124, 127135);
   (127151, 127152); (127168, 127168); (127184, 127184); (127222, 127231);
   (127406, 127461); (127491, 127503); (127548, 127551); (127561, 127567);
   (127570, 127583); (127590, 127743); (128728, 128732); (128749, 128751);
   (128765, 128767); (128884, 128895); (128985, 128991); (129004, 129007);
   (129009, 129023); (129036, 129039); (129096, 129103); (129114, 129119);
   (129160, 129167); (129198, 129199); (129202, 129279); (129620, 129631);
   (129646, 129647); (129653, 129655); (129661, 129663); (129671, 129679);
   (129709, 129711); (129723, 129727); (129734, 129743); (129754, 129759);
   (129768, 129775); (129783, 129791); (129939, 129939); (129995, 130031);
   (130042, 131071); (173792, 173823); (177977, 177983); (178206, 178207);
   (183970, 183983); (191457, 194559); (195102, 196607); (201547, 917759);
   (918000, 1114111)
  ]%N.

Definition is_printable (u : N) : bool :=
  negb (existsb (fun r => (fst r <=? u) && (u <=? snd r))%N not_printable).

(** One ASCII character of [repr(s)] with the quote [q] chosen for the
    whole string. *)
Definition repr_char (q c : ascii) : string :=
  let n := code c in
  if (Ascii.eqb c q || Ascii.eqb c "\")%bool then String "\" (String c "")
  else if (n =? 9)%N then "\t"
  else if (n =? 10)%N then "\n"
  else if (n =? 13)%N then "\r"
  else if ((n <? 32) || (n =? 127))%N
       then String "\" (String "x" (String (hex_digit (n / 16))
                                      (String (hex_digit (n mod 16)) "")))
  else String c "".

(** The escape of a character beyond ASCII that is not printable. *)
Definition escape (u : N) : list ascii :=
  if (u <? 256)%N then "\"%char :: "x"%char :: hex 2 u
  else if (u <? 65536)%N then "\"%char :: "u"%char :: hex 4 u
  else "\"%char :: "U"%char :: hex 8 u.

(** The characters of [repr(s)] between its quotes; [k] bytes of the
    current character are still to pass.  A printable character beyond
    ASCII is copied, byte by byte. *)
Fixpoint repr_go (q : ascii) (k : nat) (s : list ascii) : list ascii :=
  match s with
  | [] => []
  | c :: r =>
      match k with
      | S k' => repr_go q k' r
      | O =>
          match decode_head s with
          | Some (u, S n) =>
              if (u <? 128)%N
              then list_ascii_of_string (repr_char q c) ++ repr_go q 0 r
              else if is_printable u
              then firstn (S n) s ++ repr_go q n r
              else escape u ++ repr_go q n r
          | _ => c :: repr_go q 0 r
          end
      end
  end.

Definition repr_body (q : ascii) (s : string) : string :=
  string_of_list_ascii (repr_go q 0 (list_ascii_of_string s)).

(** [repr(s)] for a [str]: single quotes, unless the text has a single
    quote and no double quote. *)
Definition repr (s : string) : string :=
  let q := if (has_char "'" s && negb (has_char dquote s))%bool
           then dquote else "'"%char in
  String q (repr_body q s ++ String q "").

(** [sep.join(l)] *)
Fixpoint join (sep : string) (l : list string) : string :=
  match l with
  | [] => ""
  | [x] => x
  | x :: r => x ++ sep ++ join sep r
  end.

(** [repr(l)] for a list of [str], as an f-string renders it. *)
Definition repr_list (l : list string) : string :=
  "[" ++ join ", " (map repr l) ++ "]".

End PyStr.

(** ** JSON values and [json.loads] *)

Module Json.

(** What [json.loads] builds: [None], [bool], [int], [float], [str],
    [list], [dict].  A float keeps the text of its literal (or of the
    constant [NaN], [Infinity], [-Infinity]); the program never looks
    into one.  A dict is kept in insertion order, one entry per key. *)
Inductive value : Type :=
| JNull
| JBool (b : bool)
| JInt (n : Z)
| JFloat (literal : string)
| JStr (s : string)
| JArr (items : list value)
| JObj (entries : list (string * value)).

(** [d[k] = v] on a dict: the entry of an existing key is overwritten in
    place, a new key is appended. *)
Fixpoint dict_set (k : string) (v : value) (d : list (string * value))
  : list (string * value) :=
  match d with
  | [] => [(k, v)]
  | (k', v') :: r =>
      if String.eqb k k' then (k, v) :: r else (k', v') :: dict_set k v r
  end.

(** [d.get(k)], and [d[k]] where it does not raise. *)
Fixpoint dict_get (k : string) (d : list (string * value)) : option value :=
  match d with
  | [] => None
  | (k', v) :: r => if String.eqb k k' then Some v else dict_get k r
  end.

(** [k in d] *)
Definition dict_mem (k : string) (d : list (string * value)) : bool :=
  match dict_get k d with Some _ => true | None => false end.

(** Outcome of a scanner: the fuel ran out, the text is rejected
    ([JSONDecodeError]), or a value was read and [rest] follows it. *)
Inductive scan (A : Type) : Type :=
| OutOfFuel
| Reject
| Got (v : A) (rest : list ascii).
Arguments OutOfFuel {A}.
Arguments Reject {A}.
Arguments Got {A} v rest.

(** The white space of the decoder: space, TAB, LF, CR. *)
Definition is_ws (c : ascii) : bool :=
  let n := PyStr.code c in
  ((n =? 32) || (n =? 9) || (n =? 10) || (n =? 13))%N.

Fixpoint skip_ws (s : list ascii) : list ascii :=
  match s with
  | c :: r => if is_ws c then skip_ws r else s
  | [] => []
  end.

Definition is_digit (c : ascii) : bool :=
  let n := PyStr.code c in ((48 <=? n) && (n <=? 57))%N.

Definition digit_val (c : ascii) : Z := Z.of_N (PyStr.code c) - 48.

Definition hex_val (c : ascii) : option N :=
  let n := PyStr.code c in
  if ((48 <=? n) && (n <=? 57))%N then Some (n - 48)%N
  else if ((97 <=? n) && (n <=? 102))%N then Some (n - 87)%N
  else if ((65 <=? n) && (n <=? 70))%N then Some (n - 55)%N
  else None.

(** The four hex digits of a [\uXXXX] escape. *)
Definition hex4 (a b c d : ascii) : option N :=
  match hex_val a, hex_val b, hex_val c, hex_val d with
  | Some x, Some y, Some z, Some w =>
      Some (((x * 16 + y) * 16 + z) * 16 + w)%N
  | _, _, _, _ => None
  end.

(** UTF-8 bytes of a code point (a lone surrogate gets the three bytes
    its number would have). *)
Definition utf8 (u : N) : list ascii :=
  if (u <? 128)%N then [ascii_of_N u]
  else if (u <? 2048)%N then
    [ascii_of_N (192 + u / 64); ascii_of_N (128 + u mod 64)]
  else if (u <? 65536)%N then
    [ascii_of_N (224 + u / 4096); ascii_of_N (128 + (u / 64) mod 64);
     ascii_of_N (128 + u mod 64)]
  else
    [ascii_of_N (240 + u / 262144); ascii_of_N (128 + (u / 4096) mod 64);
     ascii_of_N (128 + (u / 64) mod 64); ascii_of_N (128 + u mod 64)].

Definition is_high_surrogate (u : N) : bool :=
  ((55296 <=? u) && (u <=? 56319))%N.
Definition is_low_surrogate (u : N) : bool :=
  ((56320 <=? u) && (u <=? 57343))%N.
Definition join_surrogates (hi lo : N) : N :=
  (65536 + ((hi - 55296) * 1024 + (lo - 56320)))%N.

Definition simple_escape (c : ascii) : option ascii :=
  if Ascii.eqb c PyStr.dquote then Some PyStr.dquote
  else if Ascii.eqb c "\" then Some "\"%char
  else if Ascii.eqb c "/" then Some "/"%char
  else if Ascii.eqb c "b" then Some (ascii_of_N 8)
  else if Ascii.eqb c "f" then Some (ascii_of_N 12)
  else if Ascii.eqb c "n" then Some (ascii_of_N 10)
  else if Ascii.eqb c "r" then Some (ascii_of_N 13)
  else if Ascii.eqb c "t" then Some (ascii_of_N 9)
  else None.

Definition push (cs : list ascii) (r : scan (list ascii)) : scan (list ascii) :=
  match r with
  | Got v rest => Got (cs ++ v) rest
  | Reject => Reject
  | OutOfFuel => OutOfFuel
  end.

(** [scanstring] in strict mode, from just after the opening quote: the
    decoded characters and the text after the closing quote. *)
Fixpoint scanstring (s : list ascii) : scan (list ascii) :=
  match s with
  | [] => Reject
  | c :: r =>
      if Ascii.eqb c PyStr.dquote then Got [] r
      else if Ascii.eqb c "\" then
        match r with
        | [] => Reject
        | e :: r1 =>
            if Ascii.eqb e "u" then
              match r1 with
              | h1 :: h2 :: h3 :: h4 :: r2 =>
                  match hex4 h1 h2 h3 h4 with
                  | None => Reject
                  | Some u =>
                      match r2 with
                      | b :: u' :: g1 :: g2 :: g3 :: g4 :: r3 =>
                          if (is_high_surrogate u && Ascii.eqb b "\"
                              && Ascii.eqb u' "u")%bool then
                            match hex4 g1 g2 g3 g4 with
                            | None => Reject
                            | Some u2 =>
                                if is_low_surrogate u2
                                then push (utf8 (join_surrogates u u2))
                                          (scanstring r3)
                                else push (utf8 u) (scanstring r2)
                            end
                          else push (utf8 u) (scanstring r2)
                      | _ => push (utf8 u) (scanstring r2)
                      end
                  end
              | _ => Reject
              end
            else
              match simple_escape e with
              | Some x => push [x] (scanstring r1)
              | None => Reject
              end
        end
      else if (PyStr.code c <? 32)%N then Reject
      else push [c] (scanstring r)
  end.

(** Longest run of digits at the head of the text. *)
Fixpoint digits (s : list ascii) : list ascii * list ascii :=
  match s with
  | c :: r => if is_digit c then let (d, t) := digits r in (c :: d, t)
              else ([], s)
  | [] => ([], [])
  end.

Definition int_of_digits (d : list ascii) : Z :=
  fold_left (fun a c => a * 10 + digit_val c)%Z d 0%Z.

(** Integer part: [0] or a digit from 1 to 9 followed by digits. *)
Definition int_part (s : list ascii) : option (list ascii * list ascii) :=
  match s with
  | c :: r =>
      if Ascii.eqb c "0" then Some ([c], r)
      else if is_digit c then let (d, t) := digits r in Some (c :: d, t)
      else None
  | [] => None
  end.

(** Fraction: a dot followed by at least one digit, else nothing. *)
Definition frac_part (s : list ascii) : list ascii * list ascii :=
  match s with
  | c :: r =>
      if Ascii.eqb c "." then
        match digits r with
        | ([], _) => ([], s)
        | (d, t) => (c :: d, t)
        end
      else ([], s)
  | [] => ([], [])
  end.

(** Exponent: [e] or [E], an optional sign, at least one digit; else
    nothing. *)
Definition exp_part (s : list ascii) : list ascii * list ascii :=
  match s with
  | c :: r =>
      if (Ascii.eqb c "e" || Ascii.eqb c "E")%bool then
        match r with
        | g :: r1 =>
            if (Ascii.eqb g "-" || Ascii.eqb g "+")%bool then
              match digits r1 with
              | ([], _) => ([], s)
              | (d, t) => (c :: g :: d, t)
              end
            else
              match digits r with
              | ([], _) => ([], s)
              | (d, t) => (c :: d, t)
              end
        | [] => ([], s)
        end
      else ([], s)
  | [] => ([], [])
  end.

(** A number at the head of the text, the longest match of the decoder's
    pattern: an optional minus sign, the integer part, an optional
    fraction, an optional exponent; an [int] when it has neither fraction
    nor exponent, a [float] otherwise. *)
Definition match_number (s : list ascii) : scan value :=
  let (neg, s1) := match s with
                   | c :: r => if Ascii.eqb c "-" then (true, r) else (false, s)
                   | [] => (false, s)
                   end in
  match int_part s1 with
  | None => Reject
  | Some (i, s2) =>
      let (f, s3) := frac_part s2 in
      let (e, s4) := exp_part s3 in
      match f, e with
      | [], [] =>
          Got (JInt (if neg then - int_of_digits i else int_of_digits i)%Z) s4
      | _, _ =>
          Got (JFloat (string_of_list_ascii
                         ((if neg then ["-"%char] else []) ++ i ++ f ++ e))) s4
      end
  end.

(** [s] starts with [p]: what follows the prefix. *)
Fixpoint after_prefix (p s : list ascii) : option (list ascii) :=
  match p, s with
  | [], _ => Some s
  | a :: p', b :: s' => if Ascii.eqb a b then after_prefix p' s' else None
  | _ :: _, [] => None
  end.

Definition word (w : string) (v : value) (s : list ascii) : scan value :=
  match after_prefix (list_ascii_of_string w) s with
  | Some r => Got v r
  | None => Reject
  end.

(** The scanner of the decoder, [scan_once], with the loops over the
    items of an array and the members of an object.  [fuel] bounds the
    number of nested calls; [fuel_enough] below shows that the amount
    [json_loads] gives is never used up. *)
Fixpoint scan_once (fuel : nat) (s : list ascii) : scan value :=
  match fuel with
  | O => OutOfFuel
  | S f =>
      match s with
      | [] => Reject
      | c :: r =>
          if Ascii.eqb c PyStr.dquote then
            match scanstring r with
            | Got v rest => Got (JStr (string_of_list_ascii v)) rest
            | Reject => Reject
            | OutOfFuel => OutOfFuel
            end
          else if Ascii.eqb c "{" then
            match skip_ws r with
            | c1 :: r1 =>
                if Ascii.eqb c1 "}" then Got (JObj []) r1
                else object_loop f [] (c1 :: r1)
            | [] => Reject
            end
          else if Ascii.eqb c "[" then
            match skip_ws r with
            | c1 :: r1 =>
                if Ascii.eqb c1 "]" then Got (JArr []) r1
                else array_loop f [] (c1 :: r1)
            | [] => Reject
            end
          else if Ascii.eqb c "n" then word "null" JNull s
          else if Ascii.eqb c "t" then word "true" (JBool true) s
          else if Ascii.eqb c "f" then word "false" (JBool false) s
          else if Ascii.eqb c "N" then word "NaN" (JFloat "NaN") s
          else if Ascii.eqb c "I" then word "Infinity" (JFloat "Infinity") s
          else if Ascii.eqb c "-" then
            match word "-Infinity" (JFloat "-Infinity") s with
            | Got v rest => Got v rest
            | _ => match_number s
            end
          else match_number s
      end
  end

with array_loop (fuel : nat) (acc : list value) (s : list ascii)
  : scan value :=
  match fuel with
  | O => OutOfFuel
  | S f =>
      match scan_once f s with
      | Got v r =>
          match skip_ws r with
          | c :: r1 =>
              if Ascii.eqb c "]" then Got (JArr (rev (v :: acc))) r1
              else if Ascii.eqb c "," then array_loop f (v :: acc) (skip_ws r1)
              else Reject
          | [] => Reject
          end
      | Reject => Reject
      | OutOfFuel => OutOfFuel
      end
  end

with object_loop (fuel : nat) (acc : list (string * value)) (s : list ascii)
  : scan value :=
  match fuel with
  | O => OutOfFuel
  | S f =>
      match s with
      | q :: r =>
          if Ascii.eqb q PyStr.dquote then
            match scanstring r with
            | Got k r1 =>
                match skip_ws r1 with
                | c1 :: r2 =>
                    if Ascii.eqb c1 ":" then
                      match scan_once f (skip_ws r2) with
                      | Got v r3 =>
                          let acc' := dict_set (string_of_list_ascii k) v acc in
                          match skip_ws r3 with
                          | c2 :: r4 =>
                              if Ascii.eqb c2 "}" then Got (JObj acc') r4
                              else if Ascii.eqb c2 ","
                                   then object_loop f acc' (skip_ws r4)
                                   else Reject
                          | [] => Reject
                          end
                      | Reject => Reject
                      | OutOfFuel => OutOfFuel
                      end
                    else Reject
                | [] => Reject
                end
            | Reject => Reject
            | OutOfFuel => OutOfFuel
            end
          else Reject
      | [] => Reject
      end
  end.

Definition fuel_for (s : list ascii) : nat := 2 * List.length s + 2.

(** [decode]: white space, one value, white space, the end of the text;
    anything left over is the error "Extra data". *)
Definition decode (s : list ascii) : scan value :=
  let s0 := skip_ws s in
  match scan_once (fuel_for s0) s0 with
  | Got v r => match skip_ws r with [] => Got v [] | _ :: _ => Reject end
  | Reject => Reject
  | OutOfFuel => OutOfFuel
  end.

(** [json.loads(text)]: [None] stands for [json.JSONDecodeError]. *)
Definition loads (text : string) : option value :=
  match decode (list_ascii_of_string text) with
  | Got v _ => Some v
  | _ => None
  end.

End Json.

Import Json.

(** ** Exceptions *)

(** The [Exception]s the program can meet: the ones the interpreter raises
    on a wrong attribute, key, index or operand type, the decoder's error
    (its message is not modelled), and whatever a service raises (class
    name and message). *)
Inductive exn : Type :=
| AttributeError (msg : string)
| KeyError (key : string)
| IndexError (msg : string)
| TypeError (msg : string)
| JSONDecodeError
| ServiceError (cls msg : string).

(** [str(e)], what [f"{e}"] prints. *)
Definition exn_str (e : exn) : string :=
  match e with
  | AttributeError m => m
  | KeyError k => PyStr.repr k
  | IndexError m => m
  | TypeError m => m
  | JSONDecodeError => "JSONDecodeError"
  | ServiceError _ m => m
  end.

(** A computation that returns or raises. *)
Inductive res (A : Type) : Type :=
| Ok (a : A)
| Raise (e : exn).
Arguments Ok {A} a.
Arguments Raise {A} e.

(** ** The tool catalog *)

(** A tool descriptor as [session.list_tools()] delivers it. *)
Record Tool : Type := {
  name : string;
  description : option string;
  inputSchema : value
}.

Definition string_of_Z (n : Z) : string :=
  DecimalString.NilZero.string_of_int (Z.to_int n).

(** [repr(v)] of a JSON-like Python value.  A float is printed by the text
    it carries. *)
Fixpoint py_repr (v : value) : string :=
  match v with
  | JNull => "None"
  | JBool true => "True"
  | JBool false => "False"
  | JInt n => string_of_Z n
  | JFloat t => t
  | JStr s => PyStr.repr s
  | JArr l => ("[" ++ PyStr.join ", " (map py_repr l) ++ "]")%string
  | JObj d =>
      ("{" ++ PyStr.join ", "
                (map (fun kv => match kv with
                                | (k, x) => PyStr.repr k ++ ": " ++ py_repr x
                                end) d) ++ "}")%string
  end.

(** [f"{d}"] for [d : str | None]. *)
Definition str_opt (d : option string) : string :=
  match d with Some s => s | None => "None" end.

(** ** Prompt Builder *)

Definition tool_names (tools : list Tool) : list string := map name tools.

Definition get_router_prompt (query : string) (tools : list Tool) : string :=
  let tool_names := tool_names tools in
  ("You are a smart router that decides whether a user's question should call a tool."
    ++ PyStr.nl ++ PyStr.nl
  ++ "Available tools: " ++ PyStr.repr_list tool_names ++ PyStr.nl ++ PyStr.nl
  ++ "User question: " ++ query ++ PyStr.nl ++ PyStr.nl
  ++ "If the question requires one of these tools, respond ONLY with this JSON:"
    ++ PyStr.nl
  ++ "{ " ++ PyStr.dq ++ "use_tool" ++ PyStr.dq ++ ": true }" ++ PyStr.nl ++ PyStr.nl
  ++ "If no tool is needed, respond ONLY with this JSON:" ++ PyStr.nl
  ++ "{ " ++ PyStr.dq ++ "use_tool" ++ PyStr.dq ++ ": false }" ++ PyStr.nl)%string.

Definition tool_line (tool : Tool) : string :=
  ("- " ++ name tool ++ ": " ++ str_opt (description tool) ++ ", "
        ++ py_repr (inputSchema tool))%string.

Definition get_tool_selection_prompt (query : string) (tools : list Tool)
  : string :=
  let tools_description := PyStr.join PyStr.nl (map tool_line tools) in
  ("You are a helpful assistant. You can call the following tools:"
    ++ PyStr.nl ++ PyStr.nl
  ++ tools_description ++ PyStr.nl ++ PyStr.nl
  ++ "User query: " ++ query ++ PyStr.nl ++ PyStr.nl
  ++ "IMPORTANT: When you need to use a tool, respond ONLY with the exact JSON object below and nothing else:"
    ++ PyStr.nl
  ++ "{" ++ PyStr.nl
  ++ "  " ++ PyStr.dq ++ "tool" ++ PyStr.dq ++ ": "
       ++ PyStr.dq ++ "tool-name" ++ PyStr.dq ++ "," ++ PyStr.nl
  ++ "  " ++ PyStr.dq ++ "arguments" ++ PyStr.dq ++ ": {" ++ PyStr.nl
  ++ "    " ++ PyStr.dq ++ "arg1" ++ PyStr.dq ++ ": "
       ++ PyStr.dq ++ "value" ++ PyStr.dq ++ "," ++ PyStr.nl
  ++ "    " ++ PyStr.dq ++ "arg2" ++ PyStr.dq ++ ": "
       ++ PyStr.dq ++ "value" ++ PyStr.dq ++ PyStr.nl
  ++ "  }" ++ PyStr.nl
  ++ "}")%string.

(** ** Tool-Call Validator *)

(** [isinstance(v, dict)] *)
Definition is_dict (v : value) : bool :=
  match v with JObj _ => true | _ => false end.

(** [v == s] for a parsed value and a [str]: only a [str] equals a [str]. *)
Definition py_eq_str (v : value) (s : string) : bool :=
  match v with JStr t => String.eqb t s | _ => false end.

(** [v in l] for a list [l] of [str]. *)
Definition py_in (v : value) (l : list string) : bool :=
  existsb (py_eq_str v) l.

(** [d[k]] on the entries of a dict. *)
Definition getitem (d : list (string * value)) (k : string) : res value :=
  match dict_get k d with
  | Some v => Ok v
  | None => Raise (KeyError k)
  end.

(** [is_valid_tool_call(response, tools)].  The two subscripts could raise
    a [KeyError], hence the [res]; the membership tests before them rule
    that out ([is_valid_tool_call_total] below). *)
Definition is_valid_tool_call (response : string) (tools : list Tool)
  : res bool :=
  match loads response with
  | None => Ok false                              (* except JSONDecodeError *)
  | Some parsed =>
      match parsed with
      | JObj d =>
          if (negb (dict_mem "tool" d) || negb (dict_mem "arguments" d))%bool
          then Ok false
          else
            match getitem d "tool" with
            | Raise e => Raise e
            | Ok t =>
                if negb (py_in t (tool_names tools)) then Ok false
                else
                  match getitem d "arguments" with
                  | Raise e => Raise e
                  | Ok a => if negb (is_dict a) then Ok false else Ok true
                  end
            end
      | _ => Ok false                             (* not isinstance(parsed, dict) *)
      end
  end.

(** ** Services and the effects of a session *)

(** One part of a tool result's content; only a text part has [.text]. *)
Inductive content_part : Type :=
| TextContent (text : string)
| OtherContent.

Record tool_result : Type := { content : list content_part }.

(** The two services, as oracles: what the [n]-th call of the session
    answers.  [completion n message] is the completion text of
    [chat.completions.create] for the user message, before it is stripped
    (a failure of the call, or of reading the text out of its response, is
    a [Raise]); [tool_service n tool arguments] is the outcome of
    [session.call_tool]. *)
Record services : Type := {
  completion : nat -> string -> res string;
  tool_service : nat -> value -> value -> res tool_result
}.

(** What [print] is given.  The success message of lines 119-124 is kept
    with its three interpolated values. *)
Inductive printed : Type :=
| Line (s : string)
| ToolResultLines (weight_kg height_m : option value) (text : string).

(** What a session does, in order: a line read by [input] (its prompt is not
    recorded), a call of [llm_client] with what it returned, a call of
    [session.call_tool] with its outcome, a [print]. *)
Inductive event : Type :=
| Input (line : string)
| LlmCall (message : string) (outcome : res string)
| CallTool (tool arguments : value) (outcome : res tool_result)
| Print (p : printed).

Record counters : Type := { completions : nat; tool_calls : nat }.

(** A step of the session: from the call counters to an outcome, the new
    counters and the events of the step, oldest first. *)
Definition M (A : Type) : Type := counters -> res A * counters * list event.

Definition ret {A} (a : A) : M A := fun c => (Ok a, c, []).

(** The counters after one more call of a service. *)
Definition llm_done (c : counters) : counters :=
  {| completions := S (completions c); tool_calls := tool_calls c |}.
Definition tool_done (c : counters) : counters :=
  {| completions := completions c; tool_calls := S (tool_calls c) |}.

(** A result with the events [t] put before its own. *)
Definition prepend {A} (t : list event) (x : res A * counters * list event)
  : res A * counters * list event :=
  match x with (r, c, t') => (r, c, t ++ t') end.

Definition bind {A B} (m : M A) (k : A -> M B) : M B :=
  fun c =>
    match m c with
    | (Ok a, c1, t1) => prepend t1 (k a c1)
    | (Raise e, c1, t1) => (Raise e, c1, t1)
    end.

Declare Scope session_scope.
Delimit Scope session_scope with session.
Notation "x <- m ;; k" := (bind m (fun x => k))
  (at level 61, m at next level, right associativity) : session_scope.
Notation "m ;; k" := (bind m (fun _ => k))
  (at level 61, right associativity) : session_scope.
Local Open Scope session_scope.

Definition lift {A} (r : res A) : M A := fun c => (r, c, []).

Definition log (e : event) : M unit := fun c => (Ok tt, c, [e]).

(** [print(...)] *)
Definition print (p : printed) : M unit := log (Print p).

(** [try: body  except Exception as e: handler e] *)
Definition try_except {A} (body : M A) (handler : exn -> M A) : M A :=
  fun c =>
    match body c with
    | (Ok a, c1, t1) => (Ok a, c1, t1)
    | (Raise e, c1, t1) => prepend t1 (handler e c1)
    end.

(** The name of a value's type, as error messages spell it. *)
Definition type_name (v : value) : string :=
  match v with
  | JNull => "NoneType"
  | JBool _ => "bool"
  | JInt _ => "int"
  | JFloat _ => "float"
  | JStr _ => "str"
  | JArr _ => "list"
  | JObj _ => "dict"
  end.

(** [v.get(k)]: only a dict has [get]. *)
Definition py_get (v : value) (k : string) : res (option value) :=
  match v with
  | JObj d => Ok (dict_get k d)
  | _ => Raise (AttributeError
                  ("'" ++ type_name v ++ "' object has no attribute 'get'")%string)
  end.

(** [v[k]] for a [str] key (the text of the [TypeError] is schematic). *)
Definition subscript (v : value) (k : string) : res value :=
  match v with
  | JObj d => getitem d k
  | _ => Raise (TypeError
                  ("'" ++ type_name v ++ "' object is not subscriptable by a str")%string)
  end.

(** [x is True] for the result of [get]. *)
Definition is_True (x : option value) : bool :=
  match x with Some (JBool true) => true | _ => false end.

(** [json.loads] as a call that can raise. *)
Definition json_loads (text : string) : res value :=
  match loads text with Some v => Ok v | None => Raise JSONDecodeError end.

(** [result.content[0]] *)
Definition first_part (r : tool_result) : res content_part :=
  match content r with
  | p :: _ => Ok p
  | [] => Raise (IndexError "list index out of range")
  end.

(** [part.text] *)
Definition text_of (p : content_part) : res string :=
  match p with
  | TextContent t => Ok t
  | OtherContent => Raise (AttributeError "object has no attribute 'text'")
  end.

Inductive flow : Type := Continue | Break.

(** How far the loop got on the lines it was given: it left by [break], or
    it waits in [input] for the next line. *)
Inductive ending : Type := Exited | AwaitingInput.

Definition greeting_prompt : string :=
  "Greet the user briefly and let them know they can ask any question.".
Definition farewell : string := "Goodbye!".
Definition fallback_notice : string :=
  "Invalid router response. Falling back to direct LLM answer.".
Definition direct_header : string :=
  (PyStr.nl ++ "💬 Direct answer from LLM:")%string.
Definition invalid_notice : string := "❌ Invalid tool call response from LLM.".
Definition failure_prefix : string := "❌ Tool execution failed: ".

(** [query.lower() in ("exit", "quit")] *)
Definition is_exit (query : string) : bool :=
  existsb (String.eqb (PyStr.lower query)) ["exit"; "quit"].

Section Session.

Variable sv : services.
Variable tools : list Tool.

(** [llm_client(message)]: one call of the completion service; the text
    comes back stripped. *)
Definition llm_client (message : string) : M string :=
  fun c =>
    let outcome := match completion sv (completions c) message with
                   | Ok text => Ok (PyStr.strip text)
                   | Raise e => Raise e
                   end in
    (outcome, llm_done c, [LlmCall message outcome]).

(** [await session.call_tool(tool, arguments=arguments)] *)
Definition call_tool (tool arguments : value) : M tool_result :=
  fun c =>
    let outcome := tool_service sv (tool_calls c) tool arguments in
    (outcome, tool_done c, [CallTool tool arguments outcome]).

(** The body of the [try] of lines 114-124. *)
Definition dispatch (tool_call : value) : M unit :=
  t <- lift (subscript tool_call "tool") ;;
  a <- lift (subscript tool_call "arguments") ;;
  result <- call_tool t a ;;
  a1 <- lift (subscript tool_call "arguments") ;;
  w <- lift (py_get a1 "weight_kg") ;;
  a2 <- lift (subscript tool_call "arguments") ;;
  h <- lift (py_get a2 "height_m") ;;
  p <- lift (first_part result) ;;
  txt <- lift (text_of p) ;;
  print (ToolResultLines w h txt).

(** Lines 107-128: the branch of [use_tool] being [True]. *)
Definition tool_path (query : string) : M flow :=
  let prompt := get_tool_selection_prompt query tools in
  tool_response <- llm_client prompt ;;
  valid <- lift (is_valid_tool_call tool_response tools) ;;
  if valid : bool then
    tool_call <- lift (json_loads tool_response) ;;
    try_except (dispatch tool_call)
               (fun e => print (Line (failure_prefix ++ exn_str e)%string)) ;;
    ret Continue
  else
    print (Line invalid_notice) ;;
    ret Continue.

(** Lines 130-132: the [else] branch. *)
Definition direct_path (query : string) : M flow :=
  print (Line direct_header) ;;
  answer <- llm_client query ;;
  print (Line answer) ;;
  ret Continue.

(** Lines 102-104: the handler of the router's [JSONDecodeError]. *)
Definition fallback_path (query : string) : M flow :=
  print (Line fallback_notice) ;;
  answer <- llm_client query ;;
  print (Line answer) ;;
  ret Continue.

(** Lines 95-132: routing, once the query is known not to be an exit
    word. *)
Definition route (query : string) : M flow :=
  let route_prompt := get_router_prompt query tools in
  route_response <- llm_client route_prompt ;;
  match loads route_response with
  | None => fallback_path query
  | Some route_decision =>
      use_tool <- lift (py_get route_decision "use_tool") ;;
      if is_True use_tool then tool_path query else direct_path query
  end.

(** One iteration of the [while True] loop on the line [input] returns. *)
Definition turn (line : string) : M flow :=
  log (Input line) ;;
  let query := PyStr.strip line in
  if is_exit query then
    print (Line farewell) ;;
    ret Break
  else route query.

(** The loop on the lines the user types, as far as they go: after the last
    one the loop waits in [input]. *)
Fixpoint loop (lines : list string) : M ending :=
  match lines with
  | [] => ret AwaitingInput
  | line :: rest =>
      f <- turn line ;;
      match f with
      | Break => ret Exited
      | Continue => loop rest
      end
  end.

(** [run], from the greeting on; the catalog [tools] is what
    [session.list_tools()] returned. *)
Definition run (lines : list string) : M ending :=
  greeting <- llm_client greeting_prompt ;;
  print (Line greeting) ;;
  loop lines.

End Session.

Definition start : counters := {| completions := 0; tool_calls := 0 |}.

(** The outcome and the events of a step. *)
Definition outcome {A} (x : res A * counters * list event) : res A :=
  fst (fst x).
Definition events {A} (x : res A * counters * list event) : list event :=
  snd x.

(** ** Reading a trace *)

Definition is_llm_call (e : event) : bool :=
  match e with LlmCall _ _ => true | _ => false end.

Definition is_tool_call (e : event) : bool :=
  match e with CallTool _ _ _ => true | _ => false end.

(** The calls of the Completion Gateway, and of the Dispatcher, in a trace. *)
Definition llm_calls (t : list event) : list event := filter is_llm_call t.
Definition dispatcher_calls (t : list event) : list event :=
  filter is_tool_call t.

(** [tool] and [arguments] are what [call_tool] receives from a response
    the validator accepted: the two values under the keys of the parsed
    object, the first a name of the catalog, the second a dict. *)
Definition dispatched_from (tools : list Tool) (response : string)
           (tool arguments : value) : Prop :=
  is_valid_tool_call response tools = Ok true /\
  exists d nm args,
    loads response = Some (JObj d) /\
    dict_get "tool" d = Some tool /\ dict_get "arguments" d = Some arguments /\
    tool = JStr nm /\ In nm (tool_names tools) /\ arguments = JObj args.

(** Every call of the Dispatcher in the trace comes right after a call of
    the Completion Gateway whose answer the validator accepted. [prev] is
    the event before the trace. *)
Fixpoint justified (tools : list Tool) (prev : option event)
         (t : list event) : Prop :=
  match t with
  | [] => True
  | e :: r =>
      match e with
      | CallTool tool arguments _ =>
          match prev with
          | Some (LlmCall _ (Ok response)) =>
              dispatched_from tools response tool arguments
          | _ => False
          end
      | _ => True
      end /\ justified tools (Some e) r
  end.

(** The Router's parse as the specification words it: the text parses into
    a JSON object with a boolean [use_tool] field, or it is a
    [RoutingParseError] ([None]). *)
Definition spec_route_decision (text : string) : option bool :=
  match loads text with
  | Some (JObj d) =>
      match dict_get "use_tool" d with
      | Some (JBool b) => Some b
      | _ => None
      end
  | _ => None
  end.

(** ** A catalog and services to run the model on *)

Module Sample.

(** [s] between double quotes. *)
Definition q (s : string) : string := (PyStr.dq ++ s ++ PyStr.dq)%string.

Definition bmi : Tool :=
  {| name := "bmi";
     description := Some "computes BMI";
     inputSchema := JObj [("weight_kg", JStr "number");
                          ("height_m", JStr "number")] |}.

Definition catalog : list Tool := [bmi].

Definition use_tool_true : string := ("{ " ++ q "use_tool" ++ ": true }")%string.
Definition use_tool_false : string := ("{ " ++ q "use_tool" ++ ": false }")%string.

Definition use_tool_one : string := ("{ " ++ q "use_tool" ++ ": 1 }")%string.

Definition bmi_call : string :=
  ("{" ++ q "tool" ++ ":" ++ q "bmi" ++ "," ++ q "arguments" ++ ":{"
       ++ q "weight_kg" ++ ":70," ++ q "height_m" ++ ":1.75}}")%string.

Definition bmi_call_no_height : string :=
  ("{" ++ q "tool" ++ ":" ++ q "bmi" ++ "," ++ q "arguments" ++ ":{"
       ++ q "weight_kg" ++ ":70}}")%string.

Definition unknown_call : string :=
  ("{" ++ q "tool" ++ ":" ++ q "unknown_tool" ++ ","
       ++ q "arguments" ++ ":{}}")%string.

Definition down : exn := ServiceError "APIConnectionError" "Connection error.".

(** Services that answer the completion calls of a session from a script,
    in order, and fail once it is used up; every tool call gets [tool]. *)
Definition scripted (answers : list (res string)) (tool : res tool_result)
  : services :=
  {| completion := fun n _ => nth n answers (Raise down);
     tool_service := fun _ _ _ => tool |}.


Definition tool_crash : exn := ServiceError "McpError" "Connection closed".

(** Services whose completion call always returns [text]. *)
Definition constant (text : string) (tool : res tool_result) : services :=
  {| completion := fun _ _ => Ok text;
     tool_service := fun _ _ _ => tool |}.

Definition bmi_result : tool_result := {| content := [TextContent "22.86"] |}.

End Sample.

(** What the [try] of the tool path prints once the call is made on the
    arguments [args]: the result message, or the failure notice. *)
Definition dispatch_print (args : list (string * value))
           (o : res tool_result) : printed :=
  match o with
  | Raise e => Line (failure_prefix ++ exn_str e)%string
  | Ok result =>
      match first_part result with
      | Raise e => Line (failure_prefix ++ exn_str e)%string
      | Ok p =>
          match text_of p with
          | Raise e => Line (failure_prefix ++ exn_str e)%string
          | Ok txt =>
              ToolResultLines (dict_get "weight_kg" args)
                              (dict_get "height_m" args) txt
          end
      end
  end.

(** The event a trace ends with, [prev] for the empty trace. *)
Fixpoint last_event (prev : option event) (t : list event) : option event :=
  match t with
  | [] => prev
  | e :: r => last_event (Some e) r
  end.

(** ** White space around a text *)

(** Every character of a text is one [p] holds of; [k] bytes of the
    current character are still to pass. *)
Fixpoint all_chars (p : N -> bool) (k : nat) (s : list ascii) : bool :=
  match s with
  | [] => true
  | _ :: r =>
      match k with
      | S k' => all_chars p k' r
      | O =>
          match PyStr.decode_head s with
          | Some (u, S n) => p u && all_chars p n r
          | _ => false
          end
      end
  end.

(** [s] holds nothing but white space: each of its characters is one
    [strip] removes. *)
Definition blank (s : string) : bool :=
  all_chars PyStr.is_space 0 (list_ascii_of_string s).

(** The first character of [s] is white space; its last one is. *)
Definition space_first (s : string) : bool :=
  negb (Nat.eqb (PyStr.space_len (list_ascii_of_string s)) 0).

Definition space_last (s : string) : bool :=
  negb (Nat.eqb (PyStr.space_len_last (rev (list_ascii_of_string s))) 0).

(** [strip] on the bytes of a text. *)
Definition core (l : list ascii) : list ascii := PyStr.rstrip (PyStr.lstrip l).

(** ** The ways a turn can go *)

(** The error [get] raises on a value that is no dict. *)
Definition no_get (v : value) : exn :=
  AttributeError ("'" ++ type_name v ++ "' object has no attribute 'get'")%string.

(** The ten ways one iteration of the loop can go on [line], from the
    counters [c]: the result of the turn with what led to it. *)
Inductive turned (sv : services) (tools : list Tool) (line : string)
          (c : counters) : res flow * counters * list event -> Prop :=
| turned_exit :
    is_exit (PyStr.strip line) = true ->
    turned sv tools line c (Ok Break, c, [Input line; Print (Line farewell)])
| turned_router_down e :
    turned sv tools line c
      (Raise e, llm_done c,
       [Input line;
        LlmCall (get_router_prompt (PyStr.strip line) tools) (Raise e)])
| turned_fallback r answer :
    loads r = None ->
    turned sv tools line c
      (Ok Continue, llm_done (llm_done c),
       [Input line; LlmCall (get_router_prompt (PyStr.strip line) tools) (Ok r);
        Print (Line fallback_notice);
        LlmCall (PyStr.strip line) (Ok answer); Print (Line answer)])
| turned_fallback_down r e :
    loads r = None ->
    turned sv tools line c
      (Raise e, llm_done (llm_done c),
       [Input line; LlmCall (get_router_prompt (PyStr.strip line) tools) (Ok r);
        Print (Line fallback_notice);
        LlmCall (PyStr.strip line) (Raise e)])
| turned_no_object r v :
    loads r = Some v -> is_dict v = false ->
    turned sv tools line c
      (Raise (no_get v), llm_done c,
       [Input line; LlmCall (get_router_prompt (PyStr.strip line) tools) (Ok r)])
| turned_direct r d answer :
    loads r = Some (JObj d) -> is_True (dict_get "use_tool" d) = false ->
    turned sv tools line c
      (Ok Continue, llm_done (llm_done c),
       [Input line; LlmCall (get_router_prompt (PyStr.strip line) tools) (Ok r);
        Print (Line direct_header);
        LlmCall (PyStr.strip line) (Ok answer); Print (Line answer)])
| turned_direct_down r d e :
    loads r = Some (JObj d) -> is_True (dict_get "use_tool" d) = false ->
    turned sv tools line c
      (Raise e, llm_done (llm_done c),
       [Input line; LlmCall (get_router_prompt (PyStr.strip line) tools) (Ok r);
        Print (Line direct_header);
        LlmCall (PyStr.strip line) (Raise e)])
| turned_selection_down r d e :
    loads r = Some (JObj d) -> dict_get "use_tool" d = Some (JBool true) ->
    turned sv tools line c
      (Raise e, llm_done (llm_done c),
       [Input line; LlmCall (get_router_prompt (PyStr.strip line) tools) (Ok r);
        LlmCall (get_tool_selection_prompt (PyStr.strip line) tools) (Raise e)])
| turned_invalid r d r2 :
    loads r = Some (JObj d) -> dict_get "use_tool" d = Some (JBool true) ->
    is_valid_tool_call r2 tools = Ok false ->
    turned sv tools line c
      (Ok Continue, llm_done (llm_done c),
       [Input line; LlmCall (get_router_prompt (PyStr.strip line) tools) (Ok r);
        LlmCall (get_tool_selection_prompt (PyStr.strip line) tools) (Ok r2);
        Print (Line invalid_notice)])
| turned_dispatched r d r2 tool args o :
    loads r = Some (JObj d) -> dict_get "use_tool" d = Some (JBool true) ->
    dispatched_from tools r2 tool (JObj args) ->
    o = tool_service sv (tool_calls c) tool (JObj args) ->
    turned sv tools line c
      (Ok Continue, tool_done (llm_done (llm_done c)),
       [Input line; LlmCall (get_router_prompt (PyStr.strip line) tools) (Ok r);
        LlmCall (get_tool_selection_prompt (PyStr.strip line) tools) (Ok r2);
        CallTool tool (JObj args) o; Print (dispatch_print args o)]).

(** The lines a trace shows as read. *)
Fixpoint inputs (t : list event) : list string :=
  match t with
  | [] => []
  | Input line :: r => line :: inputs r
  | _ :: r => inputs r
  end.


(** The line is no exit word once stripped. *)
Definition goes_on (line : string) : bool := negb (is_exit (PyStr.strip line)).

(** ** What a prompt holds *)

(** The text [x] occurs in the text [s]. *)
Definition occurs (x s : string) : Prop :=
  exists a b, s = (a ++ x ++ b)%string.

(** * Properties *)

(** ** The decoder never runs out of fuel *)

Lemma skip_ws_length s : List.length (skip_ws s) <= List.length s.
Proof. induction s as [|c s IH]; simpl; [lia|]. destruct (is_ws c); simpl; lia. Qed.

Lemma push_got cs x v r :
  push cs x = Got v r -> exists v', x = Got v' r.
Proof. destruct x; simpl; try discriminate. intros H; inversion H; subst; eauto. Qed.

Lemma push_fuel cs x : push cs x = OutOfFuel -> x = OutOfFuel.
Proof. destruct x; simpl; congruence. Qed.

Ltac scan_cases H IH :=
  repeat match type of H with
    | (if ?b then _ else _) = _ => destruct b
    | match ?x with _ => _ end = _ => destruct x eqn:?
    | push _ _ = Got _ _ =>
        let v' := fresh "v" in
        apply push_got in H; destruct H as [v' H]; apply IH in H;
        simpl in *; lia
    | push _ _ = OutOfFuel => apply push_fuel in H; apply IH in H; simpl in *; try lia; try assumption
    | Got _ _ = Got _ _ => inversion H; subst; simpl; lia
    | Reject = _ => discriminate
    | Got _ _ = OutOfFuel => discriminate
    end.

Lemma scanstring_shrinks_aux n :
  forall s v r, List.length s <= n -> scanstring s = Got v r ->
                List.length r < List.length s.
Proof.
  induction n as [|n IH]; intros s v r Hn H.
  - destruct s; simpl in *; [discriminate | lia].
  - destruct s as [|c s]; [discriminate|].
    cbn [scanstring] in H. simpl List.length in *.
    scan_cases H IH.
Qed.

Lemma scanstring_shrinks s v r :
  scanstring s = Got v r -> List.length r < List.length s.
Proof. apply (scanstring_shrinks_aux (List.length s)); lia. Qed.

Lemma scanstring_fuel_aux n :
  forall s, List.length s <= n -> scanstring s <> OutOfFuel.
Proof.
  induction n as [|n IH]; intros s Hn H.
  - destruct s; simpl in *; [discriminate | lia].
  - destruct s as [|c s]; [discriminate|].
    cbn [scanstring] in H. simpl List.length in *.
    repeat match type of H with
      | (if ?b then _ else _) = _ => destruct b
      | match ?x with _ => _ end = _ => destruct x eqn:?
      | push _ _ = OutOfFuel =>
          apply push_fuel in H; apply IH in H; [exact H | simpl in *; lia]
      | _ = OutOfFuel => discriminate
      end.
Qed.

Lemma scanstring_fuel s : scanstring s <> OutOfFuel.
Proof. apply (scanstring_fuel_aux (List.length s)); lia. Qed.

Lemma digits_length s d t :
  digits s = (d, t) -> List.length s = List.length d + List.length t.
Proof.
  revert d t; induction s as [|c s IH]; simpl; intros d t H.
  - inversion H; reflexivity.
  - destruct (is_digit c).
    + destruct (digits s) as [d' t'] eqn:E. inversion H; subst.
      simpl. rewrite (IH d' t eq_refl). reflexivity.
    + inversion H; subst. reflexivity.
Qed.

Lemma int_part_length s i t :
  int_part s = Some (i, t) ->
  List.length s = List.length i + List.length t /\ 0 < List.length i.
Proof.
  destruct s as [|c s]; simpl; [discriminate|].
  destruct (Ascii.eqb c "0").
  - intros H; inversion H; subst; simpl; lia.
  - destruct (is_digit c); [|discriminate].
    destruct (digits s) as [d t'] eqn:E. intros H; inversion H; subst.
    apply digits_length in E. simpl. lia.
Qed.

Lemma frac_part_length s f t :
  frac_part s = (f, t) -> List.length s = List.length f + List.length t.
Proof.
  destruct s as [|c s]; simpl.
  - intros H; inversion H; reflexivity.
  - destruct (Ascii.eqb c ".").
    + destruct (digits s) as [d t'] eqn:E. apply digits_length in E.
      destruct d; intros H; inversion H; subst; simpl in *; lia.
    + intros H; inversion H; reflexivity.
Qed.

Lemma exp_part_length s e t :
  exp_part s = (e, t) -> List.length s = List.length e + List.length t.
Proof.
  destruct s as [|c s]; simpl.
  - intros H; inversion H; reflexivity.
  - destruct (Ascii.eqb c "e" || Ascii.eqb c "E")%bool.
    + destruct s as [|g s1]; [intros H; inversion H; reflexivity|].
      destruct (Ascii.eqb g "-" || Ascii.eqb g "+")%bool.
      * destruct (digits s1) as [d t'] eqn:E. apply digits_length in E.
        destruct d; intros H; inversion H; subst; simpl in *; lia.
      * destruct (digits (g :: s1)) as [d t'] eqn:E. apply digits_length in E.
        destruct d; intros H; inversion H; subst; simpl in *; lia.
    + intros H; inversion H; reflexivity.
Qed.

Lemma match_number_shrinks s v r :
  match_number s = Got v r -> List.length r < List.length s.
Proof.
  unfold match_number.
  destruct (match s with
            | [] => (false, s)
            | c :: r0 => if Ascii.eqb c "-" then (true, r0) else (false, s)
            end) as [neg s1] eqn:E0.
  assert (H1 : List.length s1 <= List.length s).
  { destruct s as [|c s]; [inversion E0; subst; simpl; lia|].
    destruct (Ascii.eqb c "-"); inversion E0; subst; simpl; lia. }
  destruct (int_part s1) as [[i s2]|] eqn:E1; [|discriminate].
  apply int_part_length in E1.
  destruct (frac_part s2) as [f s3] eqn:E2. apply frac_part_length in E2.
  destruct (exp_part s3) as [e s4] eqn:E3. apply exp_part_length in E3.
  destruct f, e; intros H; inversion H; subst; simpl in *; lia.
Qed.

Lemma match_number_fuel s : match_number s <> OutOfFuel.
Proof.
  unfold match_number.
  destruct (match s with
            | [] => (false, s)
            | c :: r0 => if Ascii.eqb c "-" then (true, r0) else (false, s)
            end) as [neg s1].
  destruct (int_part s1) as [[i s2]|]; [|discriminate].
  destruct (frac_part s2) as [f s3]. destruct (exp_part s3) as [e s4].
  destruct f, e; discriminate.
Qed.

Lemma after_prefix_length p : forall s r,
  after_prefix p s = Some r -> List.length s = List.length p + List.length r.
Proof.
  induction p as [|a p IH]; simpl; intros s r H.
  - inversion H; reflexivity.
  - destruct s as [|b s]; [discriminate|].
    destruct (Ascii.eqb a b); [|discriminate].
    apply IH in H. simpl. lia.
Qed.

Lemma word_shrinks w v s x r :
  w <> EmptyString -> word w v s = Got x r -> List.length r < List.length s.
Proof.
  unfold word. intros Hw.
  destruct (after_prefix (list_ascii_of_string w) s) eqn:E; [|discriminate].
  intros H; inversion H; subst. apply after_prefix_length in E.
  destruct w; [congruence|]. simpl in E. lia.
Qed.

Lemma word_fuel w v s : word w v s <> OutOfFuel.
Proof. unfold word. destruct (after_prefix _ s); discriminate. Qed.

Lemma skip_ws_cons s c r :
  skip_ws s = c :: r -> List.length r < List.length s.
Proof. intros H. pose proof (skip_ws_length s) as L. rewrite H in L. simpl in L. lia. Qed.

Lemma scan_shrinks_aux f :
  (forall s v r, scan_once f s = Got v r -> List.length r < List.length s) /\
  (forall acc s v r, array_loop f acc s = Got v r ->
                     List.length r < List.length s) /\
  (forall acc s v r, object_loop f acc s = Got v r ->
                     List.length r < List.length s).
Proof.
  induction f as [|f [IHs [IHa IHo]]].
  - repeat split; intros; discriminate.
  - repeat split.
    + intros s v r H. destruct s as [|c s]; [discriminate|].
      cbn [scan_once] in H. simpl List.length.
      destruct (Ascii.eqb c PyStr.dquote).
      { destruct (scanstring s) eqn:E; try discriminate.
        inversion H; subst. apply scanstring_shrinks in E. lia. }
      destruct (Ascii.eqb c "{").
      { destruct (skip_ws s) as [|c1 r1] eqn:E; [discriminate|].
        pose proof (skip_ws_cons _ _ _ E).
        destruct (Ascii.eqb c1 "}").
        - inversion H; subst. lia.
        - apply IHo in H. simpl in H. lia. }
      destruct (Ascii.eqb c "[").
      { destruct (skip_ws s) as [|c1 r1] eqn:E; [discriminate|].
        pose proof (skip_ws_cons _ _ _ E).
        destruct (Ascii.eqb c1 "]").
        - inversion H; subst. lia.
        - apply IHa in H. simpl in H. lia. }
      repeat match type of H with
        | (if ?b then _ else _) = _ => destruct b
        | word _ _ _ = Got _ _ =>
            apply word_shrinks in H; [exact H | discriminate]
        | match_number _ = Got _ _ => apply match_number_shrinks in H; exact H
        | match word ?w ?x ?t with _ => _ end = _ =>
            let E := fresh "E" in
            destruct (word w x t) eqn:E;
            [ | | inversion H; subst; apply word_shrinks in E;
                  [exact E | discriminate] ]
        end.
    + intros acc s v r H. cbn [array_loop] in H.
      destruct (scan_once f s) as [| |x t] eqn:E; try discriminate.
      apply IHs in E.
      destruct (skip_ws t) as [|c r1] eqn:E1; [discriminate|].
      pose proof (skip_ws_cons _ _ _ E1).
      destruct (Ascii.eqb c "]"); [inversion H; subst; lia|].
      destruct (Ascii.eqb c ","); [|discriminate].
      apply IHa in H. pose proof (skip_ws_length r1). lia.
    + intros acc s v r H. cbn [object_loop] in H.
      destruct s as [|q s]; [discriminate|]. simpl List.length.
      destruct (Ascii.eqb q PyStr.dquote); [|discriminate].
      destruct (scanstring s) as [| |k r1] eqn:E; try discriminate.
      apply scanstring_shrinks in E.
      destruct (skip_ws r1) as [|c1 r2] eqn:E1; [discriminate|].
      pose proof (skip_ws_cons _ _ _ E1).
      destruct (Ascii.eqb c1 ":"); [|discriminate].
      destruct (scan_once f (skip_ws r2)) as [| |x r3] eqn:E2; try discriminate.
      apply IHs in E2. pose proof (skip_ws_length r2).
      destruct (skip_ws r3) as [|c2 r4] eqn:E3; [discriminate|].
      pose proof (skip_ws_cons _ _ _ E3).
      destruct (Ascii.eqb c2 "}"); [inversion H; subst; lia|].
      destruct (Ascii.eqb c2 ","); [|discriminate].
      apply IHo in H. pose proof (skip_ws_length r4). lia.
Qed.

Lemma scan_once_shrinks f s v r :
  scan_once f s = Got v r -> List.length r < List.length s.
Proof. apply (scan_shrinks_aux f). Qed.

Lemma scan_fuel_aux f :
  (forall s, 2 * List.length s < f -> scan_once f s <> OutOfFuel) /\
  (forall acc s, 2 * List.length s + 1 < f -> array_loop f acc s <> OutOfFuel) /\
  (forall acc s, 2 * List.length s + 1 < f -> object_loop f acc s <> OutOfFuel).
Proof.
  induction f as [|f [IHs [IHa IHo]]].
  - repeat split; intros; lia.
  - repeat split.
    + intros s Hf H. destruct s as [|c s]; [discriminate|].
      cbn [scan_once] in H. simpl List.length in Hf.
      destruct (Ascii.eqb c PyStr.dquote).
      { destruct (scanstring s) eqn:E; try discriminate.
        exact (scanstring_fuel _ E). }
      destruct (Ascii.eqb c "{").
      { destruct (skip_ws s) as [|c1 r1] eqn:E; [discriminate|].
        pose proof (skip_ws_length s) as L. rewrite E in L.
        destruct (Ascii.eqb c1 "}"); [discriminate|].
        apply IHo in H; [exact H | lia]. }
      destruct (Ascii.eqb c "[").
      { destruct (skip_ws s) as [|c1 r1] eqn:E; [discriminate|].
        pose proof (skip_ws_length s) as L. rewrite E in L.
        destruct (Ascii.eqb c1 "]"); [discriminate|].
        apply IHa in H; [exact H | lia]. }
      repeat match type of H with
        | (if ?b then _ else _) = _ => destruct b
        | word _ _ _ = OutOfFuel => exact (word_fuel _ _ _ H)
        | match_number _ = OutOfFuel => exact (match_number_fuel _ H)
        | match word ?w ?x ?t with _ => _ end = _ =>
            destruct (word w x t); [ | | discriminate]
        end.
    + intros acc s Hf H. cbn [array_loop] in H.
      destruct (scan_once f s) as [| |x t] eqn:E.
      * apply IHs in E; [exact E | lia].
      * discriminate.
      * apply scan_once_shrinks in E.
        destruct (skip_ws t) as [|c r1] eqn:E1; [discriminate|].
        pose proof (skip_ws_cons _ _ _ E1).
        destruct (Ascii.eqb c "]"); [discriminate|].
        destruct (Ascii.eqb c ","); [|discriminate].
        apply IHa in H; [exact H|]. pose proof (skip_ws_length r1). lia.
    + intros acc s Hf H. cbn [object_loop] in H.
      destruct s as [|q s]; [discriminate|]. simpl List.length in Hf.
      destruct (Ascii.eqb q PyStr.dquote); [|discriminate].
      destruct (scanstring s) as [| |k r1] eqn:E.
      * exact (scanstring_fuel _ E).
      * discriminate.
      * apply scanstring_shrinks in E.
        destruct (skip_ws r1) as [|c1 r2] eqn:E1; [discriminate|].
        pose proof (skip_ws_cons _ _ _ E1).
        destruct (Ascii.eqb c1 ":"); [|discriminate].
        pose proof (skip_ws_length r2).
        destruct (scan_once f (skip_ws r2)) as [| |x r3] eqn:E2.
        -- apply IHs in E2; [exact E2 | lia].
        -- discriminate.
        -- apply scan_once_shrinks in E2.
           destruct (skip_ws r3) as [|c2 r4] eqn:E3; [discriminate|].
           pose proof (skip_ws_cons _ _ _ E3).
           destruct (Ascii.eqb c2 "}"); [discriminate|].
           destruct (Ascii.eqb c2 ","); [|discriminate].
           apply IHo in H; [exact H|]. pose proof (skip_ws_length r4). lia.
Qed.

Theorem fuel_enough s : decode s <> OutOfFuel.
Proof.
  unfold decode.
  destruct (scan_once (fuel_for (skip_ws s)) (skip_ws s)) as [| |v r] eqn:E.
  - intros _. apply (scan_fuel_aux (fuel_for (skip_ws s))) in E; [exact E|].
    unfold fuel_for. lia.
  - discriminate.
  - destruct (skip_ws r); discriminate.
Qed.

Lemma loads_None text :
  loads text = None <-> decode (list_ascii_of_string text) = Reject.
Proof.
  unfold loads. pose proof (fuel_enough (list_ascii_of_string text)) as F.
  destruct (decode (list_ascii_of_string text)); split; congruence.
Qed.

(** ** Tool-Call Validator *)

Lemma py_in_spec v l :
  py_in v l = true <-> exists nm, v = JStr nm /\ In nm l.
Proof.
  unfold py_in. rewrite existsb_exists. split.
  - intros [x [Hin Heq]]. destruct v; simpl in Heq; try discriminate.
    apply String.eqb_eq in Heq. subst. eauto.
  - intros [nm [-> Hin]]. exists nm. split; [exact Hin|].
    simpl. apply String.eqb_refl.
Qed.

Lemma dict_mem_get k d :
  dict_mem k d = true <-> exists v, dict_get k d = Some v.
Proof.
  unfold dict_mem. destruct (dict_get k d); split; eauto; try discriminate.
  intros [v H]; discriminate.
Qed.

Lemma is_dict_spec v : is_dict v = true <-> exists d, v = JObj d.
Proof.
  destruct v; simpl; split; eauto; try discriminate; intros [d H]; discriminate.
Qed.

Lemma is_valid_tool_call_total response tools :
  exists b, is_valid_tool_call response tools = Ok b.
Proof.
  unfold is_valid_tool_call, getitem, dict_mem.
  destruct (loads response) as [[| | | | | |d]|]; eauto.
  destruct (dict_get "tool" d) as [t|]; simpl; eauto.
  destruct (dict_get "arguments" d) as [a|]; simpl; eauto.
  destruct (py_in t (tool_names tools)); simpl; eauto.
  destruct (is_dict a); simpl; eauto.
Qed.

Lemma is_valid_tool_call_true response tools :
  is_valid_tool_call response tools = Ok true <->
  exists d nm args,
    loads response = Some (JObj d) /\
    dict_get "tool" d = Some (JStr nm) /\ In nm (tool_names tools) /\
    dict_get "arguments" d = Some (JObj args).
Proof.
  unfold is_valid_tool_call, getitem, dict_mem. split.
  - destruct (loads response) as [[| | | | | |d]|]; try discriminate.
    destruct (dict_get "tool" d) as [t|] eqn:Et; simpl; try discriminate.
    destruct (dict_get "arguments" d) as [a|] eqn:Eg; simpl; try discriminate.
    destruct (py_in t (tool_names tools)) eqn:Ein; simpl; try discriminate.
    destruct (is_dict a) eqn:Ea; simpl; try discriminate.
    intros _. apply py_in_spec in Ein. destruct Ein as [nm [-> Hin]].
    apply is_dict_spec in Ea. destruct Ea as [args ->].
    exists d, nm, args. repeat split; assumption || reflexivity.
  - intros [d [nm [args [-> [Ht [Hin Ha]]]]]].
    rewrite Ht, Ha. simpl.
    assert (E : py_in (JStr nm) (tool_names tools) = true)
      by (apply py_in_spec; eauto).
    rewrite E. reflexivity.
Qed.



(** ** The paths of a turn, unfolded *)

Section Paths.

Variable sv : services.
Variable tools : list Tool.

Lemma prepend_nil {A} (x : res A * counters * list event) : prepend [] x = x.
Proof. destruct x as [[r c] t]. reflexivity. Qed.

Lemma prepend_prepend {A} t1 t2 (x : res A * counters * list event) :
  prepend t1 (prepend t2 x) = prepend (t1 ++ t2) x.
Proof. destruct x as [[r c] t]. simpl. rewrite app_assoc. reflexivity. Qed.

Lemma events_prepend {A} t (x : res A * counters * list event) :
  events (prepend t x) = t ++ events x.
Proof. destruct x as [[r c] t']. reflexivity. Qed.

Lemma outcome_prepend {A} t (x : res A * counters * list event) :
  outcome (prepend t x) = outcome x.
Proof. destruct x as [[r c] t']. reflexivity. Qed.

Lemma direct_path_eq query c :
  direct_path sv query c =
  match completion sv (completions c) query with
  | Ok text =>
      (Ok Continue, llm_done c,
       [Print (Line direct_header); LlmCall query (Ok (PyStr.strip text));
        Print (Line (PyStr.strip text))])
  | Raise e =>
      (Raise e, llm_done c,
       [Print (Line direct_header); LlmCall query (Raise e)])
  end.
Proof.
  unfold direct_path, bind, print, log, llm_client, ret, prepend.
  destruct (completion sv (completions c) query); reflexivity.
Qed.

Lemma fallback_path_eq query c :
  fallback_path sv query c =
  match completion sv (completions c) query with
  | Ok text =>
      (Ok Continue, llm_done c,
       [Print (Line fallback_notice); LlmCall query (Ok (PyStr.strip text));
        Print (Line (PyStr.strip text))])
  | Raise e =>
      (Raise e, llm_done c,
       [Print (Line fallback_notice); LlmCall query (Raise e)])
  end.
Proof.
  unfold fallback_path, bind, print, log, llm_client, ret, prepend.
  destruct (completion sv (completions c) query); reflexivity.
Qed.

Lemma route_eq query c :
  route sv tools query c =
  match completion sv (completions c) (get_router_prompt query tools) with
  | Raise e =>
      (Raise e, llm_done c,
       [LlmCall (get_router_prompt query tools) (Raise e)])
  | Ok text =>
      prepend [LlmCall (get_router_prompt query tools) (Ok (PyStr.strip text))]
        match loads (PyStr.strip text) with
        | None => fallback_path sv query (llm_done c)
        | Some route_decision =>
            match py_get route_decision "use_tool" with
            | Raise e => (Raise e, llm_done c, [])
            | Ok use_tool =>
                if is_True use_tool then tool_path sv tools query (llm_done c)
                else direct_path sv query (llm_done c)
            end
        end
  end.
Proof.
  unfold route, bind at 1, llm_client.
  destruct (completion sv (completions c) (get_router_prompt query tools))
    as [text|e]; [|reflexivity].
  f_equal. destruct (loads (PyStr.strip text)) as [rd|]; [|reflexivity].
  unfold bind, lift. destruct (py_get rd "use_tool") as [u|e]; [|reflexivity].
  rewrite prepend_nil. destruct (is_True u); reflexivity.
Qed.

Lemma turn_eq line c :
  turn sv tools line c =
  if is_exit (PyStr.strip line)
  then (Ok Break, c, [Input line; Print (Line farewell)])
  else prepend [Input line] (route sv tools (PyStr.strip line) c).
Proof.
  unfold turn, bind at 1, log.
  destruct (is_exit (PyStr.strip line)); reflexivity.
Qed.

Lemma loop_cons line rest c :
  loop sv tools (line :: rest) c =
  match turn sv tools line c with
  | (Ok Continue, c1, t1) => prepend t1 (loop sv tools rest c1)
  | (Ok Break, c1, t1) => (Ok Exited, c1, t1)
  | (Raise e, c1, t1) => (Raise e, c1, t1)
  end.
Proof.
  cbn [loop]. unfold bind at 1.
  destruct (turn sv tools line c) as [[[[|]|e] c1] t1]; try reflexivity.
  unfold ret, prepend. rewrite app_nil_r. reflexivity.
Qed.

Lemma run_eq lines c :
  run sv tools lines c =
  match completion sv (completions c) greeting_prompt with
  | Ok text =>
      prepend [LlmCall greeting_prompt (Ok (PyStr.strip text));
               Print (Line (PyStr.strip text))]
              (loop sv tools lines (llm_done c))
  | Raise e => (Raise e, llm_done c, [LlmCall greeting_prompt (Raise e)])
  end.
Proof.
  unfold run, bind at 1, llm_client.
  destruct (completion sv (completions c) greeting_prompt) as [text|e];
    [|reflexivity].
  unfold bind at 1, print, log. rewrite prepend_prepend. reflexivity.
Qed.

Lemma attempt_eq d t args c :
  dict_get "tool" d = Some t ->
  dict_get "arguments" d = Some (JObj args) ->
  try_except (dispatch sv (JObj d))
           (fun e => print (Line (failure_prefix ++ exn_str e)%string)) c =
(Ok tt, tool_done c,
   [CallTool t (JObj args) (tool_service sv (tool_calls c) t (JObj args));
  Print (dispatch_print args
           (tool_service sv (tool_calls c) t (JObj args)))]).
Proof.
  intros Ht Ha.
unfold try_except, dispatch, bind, lift, subscript, getitem, call_tool,
  dispatch_print.
rewrite Ht, Ha. cbn [prepend app py_get].
destruct (tool_service sv (tool_calls c) t (JObj args)) as [result|e];
  [|reflexivity].
cbn [prepend app].
destruct (first_part result) as [p|e]; [|reflexivity].
cbn [prepend app].
destruct (text_of p) as [txt|e]; reflexivity.
Qed.

Lemma tool_path_eq query c :
  tool_path sv tools query c =
match completion sv (completions c)
                 (get_tool_selection_prompt query tools) with
| Raise e =>
    (Raise e, llm_done c,
     [LlmCall (get_tool_selection_prompt query tools) (Raise e)])
| Ok text =>
    prepend [LlmCall (get_tool_selection_prompt query tools)
                     (Ok (PyStr.strip text))]
      match is_valid_tool_call (PyStr.strip text) tools with
      | Raise e => (Raise e, llm_done c, [])
      | Ok false => (Ok Continue, llm_done c, [Print (Line invalid_notice)])
      | Ok true =>
          match json_loads (PyStr.strip text) with
          | Raise e => (Raise e, llm_done c, [])
          | Ok tool_call =>
              match try_except
                      (dispatch sv tool_call)
                      (fun e => print (Line (failure_prefix ++ exn_str e)%string))
                      (llm_done c) with
              | (Ok _, c1, t1) => (Ok Continue, c1, t1)
              | (Raise e, c1, t1) => (Raise e, c1, t1)
              end
          end
      end
end.
Proof.
unfold tool_path, bind at 1, llm_client.
destruct (completion sv (completions c)
                     (get_tool_selection_prompt query tools)) as [text|e];
  [|reflexivity].
f_equal. unfold bind at 1, lift.
destruct (is_valid_tool_call (PyStr.strip text) tools) as [[|]|e];
  try reflexivity.
rewrite prepend_nil. unfold bind at 1, lift.
destruct (json_loads (PyStr.strip text)) as [tc|e]; [|reflexivity].
rewrite prepend_nil. unfold bind.
destruct (try_except _ _ (llm_done c)) as [[[u|e] c1] t1]; [|reflexivity].
unfold ret, prepend. rewrite app_nil_r. reflexivity.
Qed.

(** The tool path on a response the validator accepts. *)
Lemma tool_path_valid query c text :
  completion sv (completions c) (get_tool_selection_prompt query tools)
  = Ok text ->
  is_valid_tool_call (PyStr.strip text) tools = Ok true ->
  exists d nm args,
  loads (PyStr.strip text) = Some (JObj d) /\
  dict_get "tool" d = Some (JStr nm) /\ In nm (tool_names tools) /\
  dict_get "arguments" d = Some (JObj args) /\
  tool_path sv tools query c =
  (Ok Continue, tool_done (llm_done c),
   [LlmCall (get_tool_selection_prompt query tools) (Ok (PyStr.strip text));
    CallTool (JStr nm) (JObj args)
             (tool_service sv (tool_calls c) (JStr nm) (JObj args));
    Print (dispatch_print args
             (tool_service sv (tool_calls c) (JStr nm) (JObj args)))]).
Proof.
  intros Hc Hv. pose proof Hv as Hv'.
  apply is_valid_tool_call_true in Hv'.
destruct Hv' as [d [nm [args [Hl [Ht [Hin Ha]]]]]].
  exists d, nm, args. repeat (split; [assumption|]).
rewrite tool_path_eq, Hc, Hv. unfold json_loads. rewrite Hl.
rewrite (attempt_eq d (JStr nm) args (llm_done c) Ht Ha). reflexivity.
Qed.

End Paths.

(** ** The Dispatcher is called on validated requests only *)

Section Invariant.

Variable sv : services.
Variable tools : list Tool.

Lemma justified_app t1 : forall prev t2,
  justified tools prev (t1 ++ t2) <->
  justified tools prev t1 /\ justified tools (last_event prev t1) t2.
Proof.
  induction t1 as [|e t1 IH]; intros prev t2.
  - simpl. tauto.
  - cbn [app justified last_event]. rewrite IH. tauto.
Qed.

Lemma last_event_app t1 : forall prev t2,
  last_event prev (t1 ++ t2) = last_event (last_event prev t1) t2.
Proof. induction t1 as [|e t1 IH]; intros; simpl; auto. Qed.

Lemma justified_no_calls t : forall prev,
  dispatcher_calls t = [] -> justified tools prev t.
Proof.
  induction t as [|e t IH]; intros prev H; simpl; [exact I|].
  unfold dispatcher_calls in H. simpl in H.
  destruct e; simpl in H; try discriminate; split; auto; apply IH; exact H.
Qed.

Lemma direct_path_no_calls query c :
  dispatcher_calls (events (direct_path sv query c)) = [].
Proof.
  rewrite direct_path_eq.
  destruct (completion sv (completions c) query); reflexivity.
Qed.

Lemma fallback_path_no_calls query c :
  dispatcher_calls (events (fallback_path sv query c)) = [].
Proof.
  rewrite fallback_path_eq.
  destruct (completion sv (completions c) query); reflexivity.
Qed.

Lemma tool_path_justified query c prev :
  justified tools prev (events (tool_path sv tools query c)).
Proof.
  destruct (completion sv (completions c)
                       (get_tool_selection_prompt query tools))
    as [text|e] eqn:Hc.
  - destruct (is_valid_tool_call_total (PyStr.strip text) tools) as [[|] Hv].
    + destruct (tool_path_valid sv tools query c text Hc Hv)
        as [d [nm [args [Hl [Ht [Hin [Ha Heq]]]]]]].
      rewrite Heq. cbn [events snd justified]. repeat split.
      * exact Hv.
      * exists d, nm, args. repeat split; assumption.
    + rewrite tool_path_eq, Hc, Hv. cbn. tauto.
  - rewrite tool_path_eq, Hc. cbn. tauto.
Qed.

Lemma route_justified query c prev :
  justified tools prev (events (route sv tools query c)).
Proof.
  rewrite route_eq.
  destruct (completion sv (completions c) (get_router_prompt query tools))
    as [text|e]; [|cbn; tauto].
  rewrite events_prepend. apply justified_app. split; [cbn; tauto|].
  destruct (loads (PyStr.strip text)) as [rd|].
  - destruct (py_get rd "use_tool") as [u|e]; [|cbn; tauto].
    destruct (is_True u).
    + apply tool_path_justified.
    + apply justified_no_calls, direct_path_no_calls.
  - apply justified_no_calls, fallback_path_no_calls.
Qed.

Lemma turn_justified line c prev :
  justified tools prev (events (turn sv tools line c)).
Proof.
  rewrite turn_eq. destruct (is_exit (PyStr.strip line)); [cbn; tauto|].
  rewrite events_prepend. apply justified_app. split; [cbn; tauto|].
  apply route_justified.
Qed.

Lemma loop_justified lines : forall c prev,
  justified tools prev (events (loop sv tools lines c)).
Proof.
  induction lines as [|line rest IH]; intros c prev; [cbn; tauto|].
  rewrite loop_cons. pose proof (turn_justified line c prev) as Ht.
  destruct (turn sv tools line c) as [[[[|]|e] c1] t1]; cbn [events snd] in Ht;
    try exact Ht.
  rewrite events_prepend. apply justified_app. split; [exact Ht | apply IH].
Qed.

Lemma run_justified lines c prev :
  justified tools prev (events (run sv tools lines c)).
Proof.
  rewrite run_eq.
  destruct (completion sv (completions c) greeting_prompt) as [text|e];
    [|cbn; tauto].
  rewrite events_prepend. apply justified_app. split; [cbn; tauto|].
  apply loop_justified.
Qed.

Lemma last_event_snoc prev t e :
  last_event prev t = Some e -> t = [] /\ prev = Some e \/ exists t', t = t' ++ [e].
Proof.
  revert prev. induction t as [|x t IH]; intros prev H; simpl in H.
  - left. auto.
  - right. destruct (IH _ H) as [[-> Hx]|[t' ->]].
    + inversion Hx; subst. exists []. reflexivity.
    + exists (x :: t'). reflexivity.
Qed.

Lemma justified_call prev pre tool arguments o post :
  justified tools prev (pre ++ CallTool tool arguments o :: post) ->
  exists message response,
    last_event prev pre = Some (LlmCall message (Ok response)) /\
    dispatched_from tools response tool arguments.
Proof.
  intros H. apply justified_app in H. destruct H as [_ H].
  cbn [justified] in H. destruct H as [H _].
  destruct (last_event prev pre) as [[| m [r|] | |]|]; try contradiction.
  eauto.
Qed.

End Invariant.

(** C2: in every session, each call of the Dispatcher comes right after
    a completion whose text the validator accepted, and it is made on the
    two values of that text: a tool name of the catalog and a dict of
    arguments.  A text that fails to decode is not accepted, so no call of
    the Dispatcher follows it. *)
Theorem dispatcher_only_after_validation :
  forall (sv : services) (tools : list Tool) (lines : list string)
         (c : counters) pre tool arguments o post,
    events (run sv tools lines c) = pre ++ CallTool tool arguments o :: post ->
    exists pre' message response,
      pre = pre' ++ [LlmCall message (Ok response)] /\
      dispatched_from tools response tool arguments.
Proof.
  intros sv tools lines c pre tool arguments o post H.
  pose proof (run_justified sv tools lines c None) as J. rewrite H in J.
  apply justified_call in J. destruct J as [m [r [Hl Hd]]].
  apply last_event_snoc in Hl. destruct Hl as [[_ Hn]|[pre' ->]];
    [discriminate|].
  exists pre', m, r. split; [reflexivity | exact Hd].
Qed.

Lemma dispatcher_only_after_validation_witness :
  exists pre' message response,
    [LlmCall greeting_prompt (Ok "Hello!"); Print (Line "Hello!");
     Input "What is my BMI?";
     LlmCall (get_router_prompt "What is my BMI?" Sample.catalog)
             (Ok Sample.use_tool_true);
     LlmCall (get_tool_selection_prompt "What is my BMI?" Sample.catalog)
             (Ok Sample.bmi_call)]
    = pre' ++ [LlmCall message (Ok response)] /\
    dispatched_from Sample.catalog response (JStr "bmi")
      (JObj [("weight_kg", JInt 70); ("height_m", JFloat "1.75")]).
Proof.
  apply (dispatcher_only_after_validation
           (Sample.scripted [Ok "Hello!"; Ok Sample.use_tool_true;
                              Ok Sample.bmi_call] (Ok Sample.bmi_result))
           Sample.catalog ["What is my BMI?"] start _ _ _
           (Ok Sample.bmi_result)
           [Print (ToolResultLines (Some (JInt 70)) (Some (JFloat "1.75"))
                                   "22.86")]).
  vm_compute. reflexivity.
Defined.

(** ** Routing *)

Lemma turn_routed sv tools line c text :
  is_exit (PyStr.strip line) = false ->
  completion sv (completions c) (get_router_prompt (PyStr.strip line) tools)
  = Ok text ->
  turn sv tools line c =
  prepend [Input line;
           LlmCall (get_router_prompt (PyStr.strip line) tools)
                   (Ok (PyStr.strip text))]
    match loads (PyStr.strip text) with
    | None => fallback_path sv (PyStr.strip line) (llm_done c)
    | Some route_decision =>
        match py_get route_decision "use_tool" with
        | Raise e => (Raise e, llm_done c, [])
        | Ok use_tool =>
            if is_True use_tool
            then tool_path sv tools (PyStr.strip line) (llm_done c)
            else direct_path sv (PyStr.strip line) (llm_done c)
        end
    end.
Proof.
  intros Hne Hc. rewrite turn_eq, Hne, route_eq, Hc, prepend_prepend.
  reflexivity.
Qed.

Lemma is_True_spec x : is_True x = true <-> x = Some (JBool true).
Proof.
  destruct x as [[| [|] | | | | |]|]; simpl; split; congruence.
Qed.

Lemma tool_path_first_event sv tools query c :
  exists o rest,
    events (tool_path sv tools query c)
    = LlmCall (get_tool_selection_prompt query tools) o :: rest.
Proof.
  rewrite tool_path_eq.
  destruct (completion sv (completions c)
                       (get_tool_selection_prompt query tools)) as [text|e].
  - rewrite events_prepend. eexists. eexists. reflexivity.
  - eexists. eexists. reflexivity.
Qed.

(** C10: when the route-decision text decodes to a JSON object, the turn
    takes the tool path (its next step is the completion on the
    tool-selection prompt) if the value under [use_tool] is the boolean
    true; for any other value, or none, it takes the direct-answer path:
    the header, one completion on the raw query, the answer, and no
    fallback notice. *)
Theorem tool_path_only_on_true :
  forall (sv : services) (tools : list Tool) (line : string) (c : counters)
         (text : string) (d : list (string * value)),
    is_exit (PyStr.strip line) = false ->
    completion sv (completions c) (get_router_prompt (PyStr.strip line) tools)
    = Ok text ->
    loads (PyStr.strip text) = Some (JObj d) ->
    (dict_get "use_tool" d = Some (JBool true) ->
     turn sv tools line c =
     prepend [Input line;
              LlmCall (get_router_prompt (PyStr.strip line) tools)
                      (Ok (PyStr.strip text))]
             (tool_path sv tools (PyStr.strip line) (llm_done c)) /\
     exists o rest,
       events (tool_path sv tools (PyStr.strip line) (llm_done c))
       = LlmCall (get_tool_selection_prompt (PyStr.strip line) tools) o :: rest)
    /\
    (dict_get "use_tool" d <> Some (JBool true) ->
     turn sv tools line c =
     match completion sv (S (completions c)) (PyStr.strip line) with
     | Ok answer =>
         (Ok Continue, llm_done (llm_done c),
          [Input line;
           LlmCall (get_router_prompt (PyStr.strip line) tools)
                   (Ok (PyStr.strip text));
           Print (Line direct_header);
           LlmCall (PyStr.strip line) (Ok (PyStr.strip answer));
           Print (Line (PyStr.strip answer))])
     | Raise e =>
         (Raise e, llm_done (llm_done c),
          [Input line;
           LlmCall (get_router_prompt (PyStr.strip line) tools)
                   (Ok (PyStr.strip text));
           Print (Line direct_header);
           LlmCall (PyStr.strip line) (Raise e)])
     end).
Proof.
  intros sv tools line c text d Hne Hc Hl.
  rewrite (turn_routed sv tools line c text Hne Hc), Hl. cbn [py_get].
  split.
  - intros Hu. rewrite Hu. cbn [is_True]. split; [reflexivity|].
    apply tool_path_first_event.
  - intros Hu. destruct (is_True (dict_get "use_tool" d)) eqn:E.
    + apply is_True_spec in E. contradiction.
    + rewrite direct_path_eq. cbn [completions llm_done].
      destruct (completion sv (S (completions c)) (PyStr.strip line));
        reflexivity.
Qed.

Lemma tool_path_only_on_true_witness :
  turn (Sample.scripted [Ok Sample.use_tool_one; Ok "Knock knock."]
                         (Ok Sample.bmi_result))
       Sample.catalog "Tell me a joke" start
  = (Ok Continue, llm_done (llm_done start),
     [Input "Tell me a joke";
      LlmCall (get_router_prompt "Tell me a joke" Sample.catalog)
              (Ok Sample.use_tool_one);
      Print (Line direct_header);
      LlmCall "Tell me a joke" (Ok "Knock knock.");
      Print (Line "Knock knock.")]).
Proof.
  refine (proj2 (tool_path_only_on_true
                   (Sample.scripted [Ok Sample.use_tool_one;
                                      Ok "Knock knock."]
                                     (Ok Sample.bmi_result))
                   Sample.catalog "Tell me a joke" start
                   Sample.use_tool_one [("use_tool", JInt 1)]
                   _ _ _) _).
  - vm_compute. reflexivity.
  - reflexivity.
  - vm_compute. reflexivity.
  - simpl. discriminate.
Defined.

Lemma spec_route_decision_Some r b :
  spec_route_decision r = Some b <->
  exists d, loads r = Some (JObj d) /\ dict_get "use_tool" d = Some (JBool b).
Proof.
  unfold spec_route_decision. split.
  - destruct (loads r) as [[| | | | | |d]|]; try discriminate.
    destruct (dict_get "use_tool" d) as [[| b' | | | | |]|] eqn:Eu;
      try discriminate.
    intros H; inversion H; subst. exists d. split; [reflexivity | exact Eu].
  - intros [d [-> ->]]. reflexivity.
Qed.

(** C6: when the router's answer is [use_tool] false, the turn makes, after
    the routing call, exactly one call of the Completion Gateway, on the raw
    query, and no call of the Dispatcher. *)
Theorem direct_answer_one_call :
  forall (sv : services) (tools : list Tool) (line : string) (c : counters)
         (text : string),
    is_exit (PyStr.strip line) = false ->
    completion sv (completions c) (get_router_prompt (PyStr.strip line) tools)
    = Ok text ->
    spec_route_decision (PyStr.strip text) = Some false ->
    llm_calls (events (turn sv tools line c))
    = [LlmCall (get_router_prompt (PyStr.strip line) tools)
               (Ok (PyStr.strip text));
       LlmCall (PyStr.strip line)
               match completion sv (S (completions c)) (PyStr.strip line) with
               | Ok answer => Ok (PyStr.strip answer)
               | Raise e => Raise e
               end]
    /\ dispatcher_calls (events (turn sv tools line c)) = [].
Proof.
  intros sv tools line c text Hne Hc Hr.
  apply spec_route_decision_Some in Hr. destruct Hr as [d [Hl Hu]].
  rewrite (turn_routed sv tools line c text Hne Hc), Hl. cbn [py_get].
  rewrite Hu. cbn [is_True]. rewrite direct_path_eq. cbn [completions llm_done].
  destruct (completion sv (S (completions c)) (PyStr.strip line));
    split; reflexivity.
Qed.

Lemma direct_answer_one_call_witness :
  llm_calls (events (turn (Sample.scripted [Ok Sample.use_tool_false;
                                             Ok "Knock knock."]
                                            (Ok Sample.bmi_result))
                          Sample.catalog "Tell me a joke" start))
  = [LlmCall (get_router_prompt "Tell me a joke" Sample.catalog)
             (Ok Sample.use_tool_false);
     LlmCall "Tell me a joke" (Ok "Knock knock.")]
  /\ dispatcher_calls
       (events (turn (Sample.scripted [Ok Sample.use_tool_false;
                                        Ok "Knock knock."]
                                       (Ok Sample.bmi_result))
                     Sample.catalog "Tell me a joke" start)) = [].
Proof.
  refine (direct_answer_one_call
            (Sample.scripted [Ok Sample.use_tool_false; Ok "Knock knock."]
                              (Ok Sample.bmi_result))
            Sample.catalog "Tell me a joke" start Sample.use_tool_false
            _ _ _).
  - vm_compute. reflexivity.
  - reflexivity.
  - vm_compute. reflexivity.
Defined.





(** A route-decision text that is JSON but no object makes
    [route_decision.get] raise: the [AttributeError] leaves the loop. *)
Lemma router_array_leaves_loop :
  loop (Sample.scripted [Ok "[1]"; Ok "Knock knock."] (Ok Sample.bmi_result))
       Sample.catalog ["Tell me a joke"; "exit"] start
  = (Raise (AttributeError "'list' object has no attribute 'get'"),
     llm_done start,
     [Input "Tell me a joke";
      LlmCall (get_router_prompt "Tell me a joke" Sample.catalog)
              (Ok "[1]")]).
Proof. vm_compute. reflexivity. Qed.

(** ** The exit words *)

Lemma is_exit_spec query :
  is_exit query = true <->
  PyStr.lower query = "exit" \/ PyStr.lower query = "quit".
Proof.
  unfold is_exit. cbn [existsb]. rewrite !orb_true_iff, !String.eqb_eq.
  split; [intros [H|[H|H]]; auto; discriminate | intros [H|H]; auto].
Qed.

(** A character that lowers to [x] is [x] or the upper-case letter 32
    places before it. *)
Lemma lower_char_source c x :
  PyStr.lower_char c = x -> c = x \/ c = ascii_of_N (PyStr.code x - 32).
Proof.
  intros <-. destruct c as [[] [] [] [] [] [] [] []];
    first [left; reflexivity | right; reflexivity].
Qed.

(** A line that is an exit word up to case has no white space to strip. *)
Lemma exit_word_unstripped line :
  PyStr.lower line = "exit" \/ PyStr.lower line = "quit" ->
  PyStr.strip line = line.
Proof.
  intros H.
  destruct line as [|a [|b [|c [|d [|x r]]]]];
    try (destruct H as [H|H]; discriminate H).
  destruct H as [H|H]; cbn [PyStr.lower] in H;
    injection H as Ea Eb Ec Ed;
    apply lower_char_source in Ea, Eb, Ec, Ed;
    destruct Ea as [-> | ->], Eb as [-> | ->], Ec as [-> | ->],
             Ed as [-> | ->]; reflexivity.
Qed.

(** White space beyond ASCII is stripped as well: a no-break space
    (U+00A0) before the exit word and an ideographic space (U+3000) after
    it leave the exit word. *)
Lemma exit_word_in_wide_space :
  PyStr.strip (String "194" (String "160" "Exit")
               ++ String "227" (String "128" (String "128" "")))
  = "Exit"
  /\ turn (Sample.constant Sample.use_tool_false (Ok Sample.bmi_result))
          Sample.catalog (String "194" (String "160" "exit")) start
     = (Ok Break, start,
        [Input (String "194" (String "160" "exit")); Print (Line farewell)]).
Proof. split; vm_compute; reflexivity. Qed.

Lemma route_first_event sv tools query c :
  exists o rest,
    events (route sv tools query c)
    = LlmCall (get_router_prompt query tools) o :: rest.
Proof.
  rewrite route_eq.
  destruct (completion sv (completions c) (get_router_prompt query tools)).
  - rewrite events_prepend. eexists. eexists. reflexivity.
  - eexists. eexists. reflexivity.
Qed.

(** C7 (as amended): a line read at the top of the loop ends the session
    exactly when, once its surrounding white space is stripped, it is
    [exit] or [quit] up to case: the turn prints the farewell and breaks,
    with no call of any service.  Every other line goes to routing, whose
    first step is the completion on the router prompt.  A line that is
    itself an exit word up to case has nothing to strip, so it exits. *)
Theorem exit_words_after_strip :
  forall (sv : services) (tools : list Tool) (line : string) (c : counters),
    (is_exit (PyStr.strip line) = true <->
     PyStr.lower (PyStr.strip line) = "exit" \/
     PyStr.lower (PyStr.strip line) = "quit")
    /\ (is_exit (PyStr.strip line) = true ->
        turn sv tools line c
        = (Ok Break, c, [Input line; Print (Line farewell)]))
    /\ (is_exit (PyStr.strip line) = false ->
        turn sv tools line c
        = prepend [Input line] (route sv tools (PyStr.strip line) c) /\
        exists o rest,
          events (route sv tools (PyStr.strip line) c)
          = LlmCall (get_router_prompt (PyStr.strip line) tools) o :: rest)
    /\ (PyStr.lower line = "exit" \/ PyStr.lower line = "quit" ->
        turn sv tools line c
        = (Ok Break, c, [Input line; Print (Line farewell)])).
Proof.
  intros sv tools line c. split; [apply is_exit_spec|].
  split; [|split].
  - intros H. rewrite turn_eq, H. reflexivity.
  - intros H. rewrite turn_eq, H. split; [reflexivity|].
    apply route_first_event.
  - intros H. rewrite turn_eq.
    assert (E : is_exit (PyStr.strip line) = true).
    { apply is_exit_spec. rewrite (exit_word_unstripped line H). exact H. }
    rewrite E. reflexivity.
Qed.

(** The line [" exit"] is not an exit word up to case, it starts with a
    space; the turn strips it and leaves the loop without routing. *)
Lemma padded_exit_word_exits :
  PyStr.lower " exit" <> "exit" /\ PyStr.lower " exit" <> "quit" /\
  turn (Sample.constant Sample.use_tool_false (Ok Sample.bmi_result))
       Sample.catalog " exit" start
  = (Ok Break, start, [Input " exit"; Print (Line farewell)]).
Proof.
  split; [discriminate|]. split; [discriminate|]. vm_compute. reflexivity.
Qed.

(** ** The greeting *)

Lemma turn_first_event sv tools line c :
  exists rest, events (turn sv tools line c) = Input line :: rest.
Proof.
  rewrite turn_eq. destruct (is_exit (PyStr.strip line)).
  - eexists. reflexivity.
  - rewrite events_prepend. eexists. reflexivity.
Qed.

(** C9 (as amended): on entry the session asks the Completion Gateway for a
    greeting, with a fixed prompt, and prints it before it reads any line;
    when that call fails, its error ends the session there: nothing is
    printed and no line is read. *)
Theorem greeting_before_queries :
  forall (sv : services) (tools : list Tool) (lines : list string)
         (c : counters),
    run sv tools lines c =
    match completion sv (completions c) greeting_prompt with
    | Ok text =>
        prepend [LlmCall greeting_prompt (Ok (PyStr.strip text));
                 Print (Line (PyStr.strip text))]
                (loop sv tools lines (llm_done c))
    | Raise e => (Raise e, llm_done c, [LlmCall greeting_prompt (Raise e)])
    end.
Proof. intros. apply run_eq. Qed.

(** The greeting call fails: the session ends with that error before the
    line waiting on the console is read. *)
Lemma greeting_failure_ends_session :
  run (Sample.scripted [] (Ok Sample.bmi_result)) Sample.catalog
      ["Tell me a joke"] start
  = (Raise Sample.down, llm_done start,
     [LlmCall greeting_prompt (Raise Sample.down)]).
Proof. vm_compute. reflexivity. Qed.

(** ** No error leaves the loop, as long as the completions return *)

Section Survival.

Variable sv : services.
Variable tools : list Tool.

(** Every call of the completion service returns a text. *)
Hypothesis completion_returns :
  forall n message, exists text, completion sv n message = Ok text.

(** The router's answers are no JSON at all, or JSON objects. *)
Hypothesis router_answers :
  forall n query text,
    completion sv n (get_router_prompt query tools) = Ok text ->
    loads (PyStr.strip text) = None \/
    exists d, loads (PyStr.strip text) = Some (JObj d).




End Survival.




(** ** A failing tool *)

(** C5: on a request the validator accepted, when the call of the tool
    raises, the turn catches the exception, prints the failure notice with
    the exception's message, and the loop goes on with the next line. *)
Theorem tool_failure_is_reported :
  forall (sv : services) (tools : list Tool) (line : string)
         (rest : list string) (c : counters) (text1 text2 : string)
         (d : list (string * value)) (tool arguments : value) (e : exn),
    is_exit (PyStr.strip line) = false ->
    completion sv (completions c) (get_router_prompt (PyStr.strip line) tools)
    = Ok text1 ->
    spec_route_decision (PyStr.strip text1) = Some true ->
    completion sv (S (completions c))
               (get_tool_selection_prompt (PyStr.strip line) tools)
    = Ok text2 ->
    is_valid_tool_call (PyStr.strip text2) tools = Ok true ->
    loads (PyStr.strip text2) = Some (JObj d) ->
    dict_get "tool" d = Some tool ->
    dict_get "arguments" d = Some arguments ->
    tool_service sv (tool_calls c) tool arguments = Raise e ->
    loop sv tools (line :: rest) c =
    prepend [Input line;
             LlmCall (get_router_prompt (PyStr.strip line) tools)
                     (Ok (PyStr.strip text1));
             LlmCall (get_tool_selection_prompt (PyStr.strip line) tools)
                     (Ok (PyStr.strip text2));
             CallTool tool arguments (Raise e);
             Print (Line (failure_prefix ++ exn_str e)%string)]
            (loop sv tools rest (tool_done (llm_done (llm_done c)))).
Proof.
  intros sv tools line rest c text1 text2 d tool arguments e
         Hne Hc1 Hr Hc2 Hv Hl Ht Ha Hfail.
  apply spec_route_decision_Some in Hr. destruct Hr as [d1 [Hl1 Hu]].
  destruct (tool_path_valid sv tools (PyStr.strip line) (llm_done c) text2
                            Hc2 Hv)
    as [d' [nm [args [Hl' [Ht' [_ [Ha' Heq]]]]]]].
  rewrite Hl in Hl'. inversion Hl'; subst d'.
  rewrite Ht in Ht'. inversion Ht'; subst tool.
  rewrite Ha in Ha'. inversion Ha'; subst arguments.
  cbn [tool_calls llm_done] in Heq. rewrite Hfail in Heq.
  rewrite loop_cons, (turn_routed sv tools line c text1 Hne Hc1), Hl1.
  cbn [py_get]. rewrite Hu. cbn [is_True]. rewrite Heq. reflexivity.
Qed.

Lemma tool_failure_is_reported_witness :
  loop (Sample.scripted [Ok Sample.use_tool_true; Ok Sample.bmi_call]
                         (Raise Sample.tool_crash))
       Sample.catalog ["What is my BMI?"; "quit"] start
  = prepend
      [Input "What is my BMI?";
       LlmCall (get_router_prompt "What is my BMI?" Sample.catalog)
               (Ok Sample.use_tool_true);
       LlmCall (get_tool_selection_prompt "What is my BMI?" Sample.catalog)
               (Ok Sample.bmi_call);
       CallTool (JStr "bmi")
                (JObj [("weight_kg", JInt 70); ("height_m", JFloat "1.75")])
                (Raise Sample.tool_crash);
       Print (Line (failure_prefix ++ exn_str Sample.tool_crash)%string)]
      (loop (Sample.scripted [Ok Sample.use_tool_true; Ok Sample.bmi_call]
                              (Raise Sample.tool_crash))
            Sample.catalog ["quit"]
            (tool_done (llm_done (llm_done start)))).
Proof.
  refine (tool_failure_is_reported
            (Sample.scripted [Ok Sample.use_tool_true; Ok Sample.bmi_call]
                              (Raise Sample.tool_crash))
            Sample.catalog "What is my BMI?" ["quit"] start
            Sample.use_tool_true Sample.bmi_call
            [("tool", JStr "bmi");
             ("arguments",
              JObj [("weight_kg", JInt 70); ("height_m", JFloat "1.75")])]
            (JStr "bmi")
            (JObj [("weight_kg", JInt 70); ("height_m", JFloat "1.75")])
            Sample.tool_crash _ _ _ _ _ _ _ _ _);
    vm_compute; reflexivity.
Defined.

(** A tool that returns no content: indexing the result raises inside the
    [try], and the turn reports it like a failure of the tool. *)
Lemma empty_tool_result_is_reported :
  loop (Sample.scripted [Ok Sample.use_tool_true; Ok Sample.bmi_call]
                         (Ok {| content := [] |}))
       Sample.catalog ["What is my BMI?"] start
  = (Ok AwaitingInput, tool_done (llm_done (llm_done start)),
     [Input "What is my BMI?";
      LlmCall (get_router_prompt "What is my BMI?" Sample.catalog)
              (Ok Sample.use_tool_true);
      LlmCall (get_tool_selection_prompt "What is my BMI?" Sample.catalog)
              (Ok Sample.bmi_call);
      CallTool (JStr "bmi")
               (JObj [("weight_kg", JInt 70); ("height_m", JFloat "1.75")])
               (Ok {| content := [] |});
      Print (Line (failure_prefix ++ "list index out of range")%string)]).
Proof. vm_compute. reflexivity. Qed.

(** ** The scenarios of the specification, run on the model *)

(** Scenario A: the router asks for a tool, the selection names [bmi]
    with two arguments, the tool answers. *)
Lemma scenario_tool_call :
  run (Sample.scripted [Ok "Hello!"; Ok Sample.use_tool_true;
                        Ok Sample.bmi_call] (Ok Sample.bmi_result))
      Sample.catalog ["What is my BMI?"; "exit"] start
  = (Ok Exited, tool_done (llm_done (llm_done (llm_done start))),
     [LlmCall greeting_prompt (Ok "Hello!"); Print (Line "Hello!");
      Input "What is my BMI?";
      LlmCall (get_router_prompt "What is my BMI?" Sample.catalog)
              (Ok Sample.use_tool_true);
      LlmCall (get_tool_selection_prompt "What is my BMI?" Sample.catalog)
              (Ok Sample.bmi_call);
      CallTool (JStr "bmi")
               (JObj [("weight_kg", JInt 70); ("height_m", JFloat "1.75")])
               (Ok Sample.bmi_result);
      Print (ToolResultLines (Some (JInt 70)) (Some (JFloat "1.75")) "22.86");
      Input "exit"; Print (Line farewell)]).
Proof. vm_compute. reflexivity. Qed.

(** Scenario C: the selection names a tool the catalog does not have. *)
Lemma scenario_unknown_tool :
  is_valid_tool_call Sample.unknown_call Sample.catalog = Ok false /\
  turn (Sample.scripted [Ok Sample.use_tool_true; Ok Sample.unknown_call]
                        (Ok Sample.bmi_result))
       Sample.catalog "What is my BMI?" start
  = (Ok Continue, llm_done (llm_done start),
     [Input "What is my BMI?";
      LlmCall (get_router_prompt "What is my BMI?" Sample.catalog)
              (Ok Sample.use_tool_true);
      LlmCall (get_tool_selection_prompt "What is my BMI?" Sample.catalog)
              (Ok Sample.unknown_call);
      Print (Line invalid_notice)]).
Proof. split; vm_compute; reflexivity. Qed.

(** The validator on a few more texts: prose after the object, a name in
    another case, arguments that are a list, a repeated key (the last value
    counts), and [NaN], which [json.loads] takes as a number. *)
Lemma validator_samples :
  is_valid_tool_call (Sample.bmi_call ++ " Hope that helps!") Sample.catalog
  = Ok false /\
  is_valid_tool_call
    ("{" ++ Sample.q "tool" ++ ":" ++ Sample.q "BMI" ++ ","
         ++ Sample.q "arguments" ++ ":{}}") Sample.catalog = Ok false /\
  is_valid_tool_call
    ("{" ++ Sample.q "tool" ++ ":" ++ Sample.q "bmi" ++ ","
         ++ Sample.q "arguments" ++ ":[]}") Sample.catalog = Ok false /\
  is_valid_tool_call
    ("{" ++ Sample.q "tool" ++ ":" ++ Sample.q "nope" ++ ","
         ++ Sample.q "tool" ++ ":" ++ Sample.q "bmi" ++ ","
         ++ Sample.q "arguments" ++ ":{}}") Sample.catalog = Ok true /\
  is_valid_tool_call
    ("{" ++ Sample.q "tool" ++ ":" ++ Sample.q "bmi" ++ ","
         ++ Sample.q "arguments" ++ ":{" ++ Sample.q "weight_kg"
         ++ ":NaN}}") Sample.catalog = Ok true.
Proof. repeat split; vm_compute; reflexivity. Qed.

(** The prompts on the empty catalog: the list of names is [[]], the tool
    lines are empty, the rest of the text is as ever. *)
Lemma prompts_on_empty_catalog query :
  get_router_prompt query []
  = ("You are a smart router that decides whether a user's question should call a tool."
       ++ PyStr.nl ++ PyStr.nl
     ++ "Available tools: []" ++ PyStr.nl ++ PyStr.nl
     ++ "User question: " ++ query ++ PyStr.nl ++ PyStr.nl
     ++ "If the question requires one of these tools, respond ONLY with this JSON:"
       ++ PyStr.nl
     ++ "{ " ++ PyStr.dq ++ "use_tool" ++ PyStr.dq ++ ": true }"
       ++ PyStr.nl ++ PyStr.nl
     ++ "If no tool is needed, respond ONLY with this JSON:" ++ PyStr.nl
     ++ "{ " ++ PyStr.dq ++ "use_tool" ++ PyStr.dq ++ ": false }"
       ++ PyStr.nl)%string.
Proof. reflexivity. Qed.

(** ** [strip] *)

Lemma list_ascii_app s t :
  list_ascii_of_string (s ++ t)%string
  = list_ascii_of_string s ++ list_ascii_of_string t.
Proof. induction s as [|c s IH]; simpl; [reflexivity | rewrite IH; reflexivity]. Qed.

(** *** Dropping characters from the head *)

Lemma strip_go_skip f k s :
  PyStr.strip_go f k s = PyStr.strip_go f 0 (skipn k s).
Proof.
  revert k. induction s as [|a r IH]; intros [|k]; try reflexivity.
  cbn [PyStr.strip_go skipn]. apply IH.
Qed.

Lemma strip_go_step f s :
  PyStr.strip_go f 0 s
  = match f s with
    | O => s
    | S n => PyStr.strip_go f 0 (skipn (S n) s)
    end.
Proof.
  destruct s as [|a r].
  - cbn [PyStr.strip_go]. destruct (f []); reflexivity.
  - cbn [PyStr.strip_go skipn]. destruct (f (a :: r)); [reflexivity|].
    apply strip_go_skip.
Qed.

Lemma strip_go_fixed f s : f s = 0 -> PyStr.strip_go f 0 s = s.
Proof. intros H. rewrite strip_go_step, H. reflexivity. Qed.

Lemma skipn_shorter {A} n (s : list A) :
  s <> [] -> List.length (skipn (S n) s) < List.length s.
Proof.
  destruct s as [|a r]; [congruence|]. intros _.
  cbn [skipn List.length]. rewrite length_skipn. lia.
Qed.

(** What is left starts with nothing [f] counts. *)
Lemma strip_go_stop f s : f [] = 0 -> f (PyStr.strip_go f 0 s) = 0.
Proof.
  intros H0. remember (List.length s) as n eqn:Hn. revert s Hn.
  induction n as [n IH] using lt_wf_ind. intros s Hn.
  rewrite strip_go_step. destruct (f s) as [|k] eqn:E; [exact E|].
  apply (IH (List.length (skipn (S k) s))); [|reflexivity].
  subst n. apply skipn_shorter. intros ->. congruence.
Qed.

Lemma strip_go_idem f s :
  f [] = 0 ->
  PyStr.strip_go f 0 (PyStr.strip_go f 0 s) = PyStr.strip_go f 0 s.
Proof. intros H. apply strip_go_fixed, strip_go_stop, H. Qed.

(** What is left is the end of the text. *)
Lemma strip_go_suffix f s : exists t, s = t ++ PyStr.strip_go f 0 s.
Proof.
  remember (List.length s) as n eqn:Hn. revert s Hn.
  induction n as [n IH] using lt_wf_ind. intros s Hn.
  rewrite strip_go_step. destruct (f s) as [|k] eqn:E; [exists []; reflexivity|].
  destruct s as [|a r]; [exists []; reflexivity|].
  destruct (IH (List.length (skipn (S k) (a :: r)))
               ltac:(subst n; apply skipn_shorter; discriminate)
               (skipn (S k) (a :: r)) eq_refl) as [t Ht].
  exists (firstn (S k) (a :: r) ++ t).
  rewrite <- app_assoc, <- Ht. symmetry. apply firstn_skipn.
Qed.

(** *** Reading a character *)

Lemma char_len_cont a : PyStr.is_cont a = true -> PyStr.char_len a = 0.
Proof. destruct a as [[] [] [] [] [] [] [] []]; intros H; first [reflexivity | discriminate H]. Qed.

Lemma char_len_max a : PyStr.char_len a <= 4.
Proof. destruct a as [[] [] [] [] [] [] [] []]; cbv; lia. Qed.

(** A character read at the head of a text is a first byte, which
    continues nothing, followed by the bytes that continue it, three at
    most; and these bytes alone are that character. *)
Lemma decode_head_shape s u n :
  PyStr.decode_head s = Some (u, n) ->
  exists a tail rest,
    s = a :: tail ++ rest /\ n = S (List.length tail) /\
    List.length tail <= 3 /\
    PyStr.is_cont a = false /\ forallb PyStr.is_cont tail = true /\
    PyStr.decode_head (a :: tail) = Some (u, n).
Proof.
  destruct s as [|a r]; [discriminate|]. unfold PyStr.decode_head.
  pose proof (char_len_max a) as Hmax. pose proof (char_len_cont a) as Hc.
  destruct (PyStr.char_len a) as [|m] eqn:Ea; [discriminate|].
  set (tail := firstn m r).
  destruct (Nat.eqb (List.length tail) m) eqn:El; [|discriminate].
  destruct (forallb PyStr.is_cont tail) eqn:Ef; [|discriminate].
  cbn [andb]. intros H. apply Nat.eqb_eq in El.
  exists a, tail, (skipn m r). split; [|split; [|split; [|split; [|split]]]].
  - unfold tail. rewrite firstn_skipn. reflexivity.
  - destruct (_ && _)%bool; [|discriminate]. injection H as _ <-.
    rewrite El. reflexivity.
  - lia.
  - destruct (PyStr.is_cont a); [|reflexivity]. discriminate (Hc eq_refl).
  - exact Ef.
  - assert (Et : firstn m tail = tail).
    { rewrite <- El. apply firstn_all. }
    unfold PyStr.decode_head. rewrite Ea. cbv zeta.
    rewrite Et, El, Nat.eqb_refl, Ef. cbn [andb]. exact H.
Qed.

Lemma decode_head_app s t u n :
  PyStr.decode_head s = Some (u, n) ->
  PyStr.decode_head (s ++ t) = Some (u, n).
Proof.
  destruct s as [|a r]; [discriminate|]. cbn [app PyStr.decode_head].
  destruct (PyStr.char_len a) as [|m]; [discriminate|].
  destruct (Nat.eqb (List.length (firstn m r)) m) eqn:El; [|discriminate].
  apply Nat.eqb_eq in El. rewrite length_firstn in El.
  assert (E : firstn m (r ++ t) = firstn m r).
  { rewrite firstn_app. replace (m - List.length r) with 0 by lia.
    cbn [firstn]. apply app_nil_r. }
  rewrite E. intros H. rewrite length_firstn.
  replace (Nat.eqb (Nat.min m (List.length r)) m) with true
    by (symmetry; apply Nat.eqb_eq; exact El).
  exact H.
Qed.

Lemma decode_head_cont a r :
  PyStr.is_cont a = true -> PyStr.decode_head (a :: r) = None.
Proof. intros H. cbn [PyStr.decode_head]. rewrite (char_len_cont a H). reflexivity. Qed.

(** *** White space at the head of a text *)

Lemma space_len_nil : PyStr.space_len [] = 0.
Proof. reflexivity. Qed.

Lemma space_len_last_nil : PyStr.space_len_last [] = 0.
Proof. reflexivity. Qed.

Lemma space_len_decode s n :
  PyStr.space_len s = S n ->
  exists u, PyStr.decode_head s = Some (u, S n) /\ PyStr.is_space u = true.
Proof.
  unfold PyStr.space_len.
  destruct (PyStr.decode_head s) as [[u k]|]; [|discriminate].
  destruct (PyStr.is_space u) eqn:E; [|discriminate].
  intros ->. exists u. auto.
Qed.

Lemma space_len_app s t n :
  PyStr.space_len s = S n -> PyStr.space_len (s ++ t) = S n.
Proof.
  intros H. destruct (space_len_decode s n H) as [u [Hd Hs]].
  unfold PyStr.space_len. rewrite (decode_head_app s t u (S n) Hd), Hs.
  reflexivity.
Qed.

Lemma space_len_bound s n : PyStr.space_len s = S n -> S n <= List.length s.
Proof.
  intros H. destruct (space_len_decode s n H) as [u [Hd _]].
  destruct (decode_head_shape s u (S n) Hd) as [a [tail [rest [-> [Hn _]]]]].
  cbn [List.length]. rewrite length_app. lia.
Qed.

(** A text that holds white space only and is not empty starts with a
    byte that continues nothing. *)
Lemma blank_head x b :
  PyStr.lstrip (x :: b) = [] -> PyStr.is_cont x = false.
Proof.
  unfold PyStr.lstrip. rewrite strip_go_step.
  destruct (PyStr.space_len (x :: b)) as [|n] eqn:E; [discriminate|].
  intros _. destruct (space_len_decode _ _ E) as [u [Hd _]].
  destruct (decode_head_shape _ _ _ Hd) as [a [tail [rest [Hs [_ [_ [Ha _]]]]]]].
  injection Hs as -> _. exact Ha.
Qed.

(** A text that starts with no white space starts with none when white
    space is put after it. *)
Lemma space_len_pad l b :
  l <> [] -> PyStr.space_len l = 0 -> PyStr.lstrip b = [] ->
  PyStr.space_len (l ++ b) = 0.
Proof.
  intros Hl H0 Hb. destruct b as [|x b']; [rewrite app_nil_r; exact H0|].
  pose proof (blank_head x b' Hb) as Hx.
  destruct l as [|a r]; [congruence|].
  unfold PyStr.space_len in *. cbn [app PyStr.decode_head] in *.
  destruct (PyStr.char_len a) as [|m]; [reflexivity|].
  destruct (Nat.le_gt_cases m (List.length r)) as [Hm|Hm].
  - assert (E : firstn m (r ++ x :: b') = firstn m r).
    { rewrite firstn_app. replace (m - List.length r) with 0 by lia.
      cbn [firstn]. apply app_nil_r. }
    rewrite E. exact H0.
  - assert (E : forallb PyStr.is_cont (firstn m (r ++ x :: b')) = false).
    { rewrite firstn_app, forallb_app, (firstn_all2 (n := m) r) by lia.
      destruct (m - List.length r) as [|j] eqn:Ej; [lia|].
      cbn [firstn forallb]. rewrite Hx. cbn [andb]. apply andb_false_r. }
    rewrite E, andb_false_r. reflexivity.
Qed.

Lemma lstrip_nil : PyStr.lstrip [] = [].
Proof. reflexivity. Qed.

Lemma lstrip_step s :
  PyStr.lstrip s
  = match PyStr.space_len s with
    | O => s
    | S n => PyStr.lstrip (skipn (S n) s)
    end.
Proof. apply strip_go_step. Qed.

(** White space before a text is dropped. *)
Lemma lstrip_blank a l :
  PyStr.lstrip a = [] -> PyStr.lstrip (a ++ l) = PyStr.lstrip l.
Proof.
  remember (List.length a) as n eqn:Hn. revert a Hn.
  induction n as [n IH] using lt_wf_ind. intros a Hn.
  destruct a as [|x a']; [reflexivity|].
  rewrite (lstrip_step (x :: a')).
  destruct (PyStr.space_len (x :: a')) as [|k] eqn:E; [discriminate|].
  intros H. rewrite (lstrip_step ((x :: a') ++ l)), (space_len_app _ l _ E).
  pose proof (space_len_bound _ _ E) as Hk.
  rewrite skipn_app. replace (S k - List.length (x :: a')) with 0 by lia.
  rewrite skipn_O.
  apply (IH (List.length (skipn (S k) (x :: a')))); [|reflexivity|exact H].
  subst n. apply skipn_shorter. discriminate.
Qed.

(** White space after a text that is not white space throughout stays
    where it is when the head is stripped. *)
Lemma lstrip_app l b :
  PyStr.lstrip l <> [] -> PyStr.lstrip b = [] ->
  PyStr.lstrip (l ++ b) = PyStr.lstrip l ++ b.
Proof.
  intros Hl Hb. remember (List.length l) as n eqn:Hn. revert l Hn Hl.
  induction n as [n IH] using lt_wf_ind. intros l Hn Hl.
  rewrite (lstrip_step l) in *.
  destruct (PyStr.space_len l) as [|k] eqn:E.
  - rewrite lstrip_step, (space_len_pad l b Hl E Hb). reflexivity.
  - rewrite lstrip_step, (space_len_app _ b _ E).
    pose proof (space_len_bound _ _ E) as Hk.
    rewrite skipn_app. replace (S k - List.length l) with 0 by lia.
    rewrite skipn_O.
    apply (IH (List.length (skipn (S k) l))); [|reflexivity|exact Hl].
    subst n. apply skipn_shorter. intros ->. cbn in Hk. lia.
Qed.

(** *** White space at the end of a text *)

Lemma cont_run_app cap t a y :
  forallb PyStr.is_cont t = true -> List.length t <= cap ->
  PyStr.is_cont a = false ->
  PyStr.cont_run cap (t ++ a :: y) = List.length t.
Proof.
  revert cap. induction t as [|b t IH]; intros cap Ht Hc Ha.
  - destruct cap; cbn [app PyStr.cont_run List.length]; [reflexivity|].
    rewrite Ha. reflexivity.
  - cbn [forallb] in Ht. apply andb_true_iff in Ht as [Hb Ht].
    destruct cap as [|cap]; [cbn in Hc; lia|].
    cbn [app PyStr.cont_run List.length]. rewrite Hb, IH; auto.
    cbn in Hc. lia.
Qed.

Lemma forallb_rev {A} (f : A -> bool) l :
  forallb f (rev l) = forallb f l.
Proof.
  induction l as [|x l IH]; [reflexivity|].
  cbn [rev forallb]. rewrite forallb_app, IH. cbn [forallb].
  rewrite andb_true_r. apply andb_comm.
Qed.

(** The character a text ends with is read from its end. *)
Lemma decode_last_char w y u n :
  PyStr.decode_head w = Some (u, n) -> n = List.length w ->
  PyStr.decode_last (rev w ++ y) = Some (u, n).
Proof.
  intros Hd Hn.
  destruct (decode_head_shape w u n Hd)
    as [a [tail [rest [Hw [Hn' [H3 [Ha [Ht _]]]]]]]].
  assert (rest = []) as ->.
  { subst w n. cbn [List.length] in Hn'. rewrite length_app in Hn'.
    destruct rest; [reflexivity|]. cbn [List.length] in Hn'. lia. }
  rewrite app_nil_r in Hw. subst w.
  unfold PyStr.decode_last. cbn [rev]. rewrite <- app_assoc. cbn [app].
  rewrite (cont_run_app 3 (rev tail) a y)
    by (rewrite ?forallb_rev, ?length_rev; assumption).
  assert (E : firstn (S (List.length (rev tail))) (rev tail ++ a :: y)
              = rev tail ++ [a]).
  { rewrite firstn_app.
    replace (S (List.length (rev tail)) - List.length (rev tail)) with 1
      by lia.
    rewrite firstn_all2 by lia. reflexivity. }
  rewrite E, rev_app_distr, rev_involutive. cbn [rev app].
  rewrite Hd, Hn, Nat.eqb_refl. reflexivity.
Qed.

(** White space after a text is dropped. *)
Lemma rstrip_blank_go b : forall y,
  PyStr.lstrip b = [] ->
  PyStr.strip_go PyStr.space_len_last 0 (rev b ++ y)
  = PyStr.strip_go PyStr.space_len_last 0 y.
Proof.
  remember (List.length b) as n eqn:Hn. revert b Hn.
  induction n as [n IH] using lt_wf_ind. intros b Hn y.
  destruct b as [|x b']; [reflexivity|].
  rewrite (lstrip_step (x :: b')).
  destruct (PyStr.space_len (x :: b')) as [|k] eqn:E; [discriminate|].
  intros H. destruct (space_len_decode _ _ E) as [u [Hd Hs]].
  destruct (decode_head_shape _ _ _ Hd)
    as [a [tail [rest [Hw [Hk [_ [_ [_ Hd']]]]]]]].
  assert (Hrest : skipn (S k) (x :: b') = rest).
  { rewrite Hw. injection Hk as ->. cbn [skipn].
    rewrite skipn_app, Nat.sub_diag, skipn_all. reflexivity. }
  rewrite Hrest in H. rewrite Hw.
  replace (a :: tail ++ rest) with ((a :: tail) ++ rest) by reflexivity.
  rewrite rev_app_distr, <- app_assoc.
  rewrite (IH (List.length rest)); [|subst n; rewrite Hw; cbn [List.length];
                                     rewrite length_app; lia|reflexivity|exact H].
  rewrite strip_go_step.
  assert (El : PyStr.space_len_last (rev (a :: tail) ++ y) = S k).
  { unfold PyStr.space_len_last.
    rewrite (decode_last_char (a :: tail) y u (S k) Hd')
      by (rewrite Hk; reflexivity).
    rewrite Hs. reflexivity. }
  rewrite El, skipn_app, length_rev.
  replace (S k - List.length (a :: tail)) with 0
    by (cbn [List.length]; lia).
  rewrite skipn_all2 by (rewrite length_rev, Hk; cbn; lia).
  reflexivity.
Qed.

Lemma rstrip_blank x b :
  PyStr.lstrip b = [] -> PyStr.rstrip (x ++ b) = PyStr.rstrip x.
Proof.
  intros H. unfold PyStr.rstrip. rewrite rev_app_distr, rstrip_blank_go; auto.
Qed.

Lemma rstrip_nil : PyStr.rstrip [] = [].
Proof. reflexivity. Qed.

Lemma rstrip_idem x : PyStr.rstrip (PyStr.rstrip x) = PyStr.rstrip x.
Proof.
  unfold PyStr.rstrip. rewrite rev_involutive, strip_go_idem; reflexivity.
Qed.

(** Stripping the end leaves the head of the text as it starts. *)
Lemma rstrip_prefix x : exists t, x = PyStr.rstrip x ++ t.
Proof.
  unfold PyStr.rstrip.
  destruct (strip_go_suffix PyStr.space_len_last (rev x)) as [t Ht].
  exists (rev t). rewrite <- rev_app_distr, <- Ht, rev_involutive. reflexivity.
Qed.

Lemma rstrip_head x : PyStr.space_len x = 0 -> PyStr.space_len (PyStr.rstrip x) = 0.
Proof.
  intros H. destruct (rstrip_prefix x) as [t Ht].
  destruct (PyStr.space_len (PyStr.rstrip x)) as [|k] eqn:E; [reflexivity|].
  rewrite Ht, (space_len_app _ t _ E) in H. discriminate.
Qed.

(** *** [strip] *)

Lemma strip_core s :
  PyStr.strip s = string_of_list_ascii (core (list_ascii_of_string s)).
Proof. reflexivity. Qed.

Lemma core_head l : PyStr.space_len (core l) = 0.
Proof. apply rstrip_head, strip_go_stop. reflexivity. Qed.

Lemma core_last l : PyStr.space_len_last (rev (core l)) = 0.
Proof.
  unfold core, PyStr.rstrip. rewrite rev_involutive.
  apply strip_go_stop. reflexivity.
Qed.

Lemma core_idem l : core (core l) = core l.
Proof.
  unfold core at 1. unfold PyStr.lstrip.
  rewrite (strip_go_fixed _ _ (core_head l)). apply rstrip_idem.
Qed.

Lemma core_pad a l b :
  PyStr.lstrip a = [] -> PyStr.lstrip b = [] ->
  core (a ++ l ++ b) = core l.
Proof.
  intros Ha Hb. unfold core. rewrite (lstrip_blank a _ Ha).
  destruct (PyStr.lstrip l) as [|c r] eqn:E.
  - rewrite (lstrip_blank l b E), Hb. reflexivity.
  - rewrite lstrip_app by (rewrite ?E; first [discriminate | assumption]).
    rewrite E. apply rstrip_blank, Hb.
Qed.

Lemma all_chars_skip p k s : all_chars p k s = all_chars p 0 (skipn k s).
Proof.
  revert k. induction s as [|a r IH]; intros [|k]; try reflexivity.
  cbn [all_chars skipn]. apply IH.
Qed.

Lemma all_chars_step p a r :
  all_chars p 0 (a :: r)
  = match PyStr.decode_head (a :: r) with
    | Some (u, S n) => p u && all_chars p 0 (skipn (S n) (a :: r))
    | _ => false
    end.
Proof.
  cbn [all_chars skipn].
  destruct (PyStr.decode_head (a :: r)) as [[u [|n]]|]; try reflexivity.
  rewrite (all_chars_skip p n r). reflexivity.
Qed.

(** A text of white space only is a text that stripping from the left
    leaves nothing of. *)
Lemma blank_lstrip l :
  all_chars PyStr.is_space 0 l = true <-> PyStr.lstrip l = [].
Proof.
  remember (List.length l) as n eqn:Hn. revert l Hn.
  induction n as [n IH] using lt_wf_ind. intros l Hn.
  destruct l as [|a r]; [split; reflexivity|].
  rewrite all_chars_step, lstrip_step. unfold PyStr.space_len.
  destruct (PyStr.decode_head (a :: r)) as [[u [|k]]|];
    [destruct (PyStr.is_space u)| |]; try (split; discriminate).
  destruct (PyStr.is_space u); [|split; discriminate]. cbn [andb].
  apply (IH (List.length (skipn (S k) (a :: r)))); [|reflexivity].
  subst n. apply skipn_shorter. discriminate.
Qed.

Lemma blank_spec s :
  blank s = true <-> PyStr.lstrip (list_ascii_of_string s) = [].
Proof. apply blank_lstrip. Qed.

Lemma strip_idem s : PyStr.strip (PyStr.strip s) = PyStr.strip s.
Proof.
  rewrite !strip_core, list_ascii_of_string_of_list_ascii, core_idem.
  reflexivity.
Qed.

Lemma strip_pad a s b :
  blank a = true -> blank b = true ->
  PyStr.strip (a ++ s ++ b) = PyStr.strip s.
Proof.
  intros Ha Hb. apply blank_spec in Ha, Hb.
  rewrite !strip_core, !list_ascii_app, core_pad; auto.
Qed.

Lemma strip_blank s : blank s = true -> PyStr.strip s = EmptyString.
Proof.
  intros H. apply blank_spec in H. rewrite strip_core. unfold core.
  rewrite H. reflexivity.
Qed.

(** *** Reading back what [Json.utf8] writes *)

Lemma code_ascii_of_N n : (n < 256)%N -> PyStr.code (ascii_of_N n) = n.
Proof. apply N_ascii_embedding. Qed.

Ltac split_ltb :=
  repeat (cbn [firstn List.length Nat.eqb forallb fold_left andb PyStr.least];
          rewrite ?code_ascii_of_N by lia;
          match goal with
          | |- context [(?a <? ?b)%N] =>
              destruct (N.ltb_spec a b); try lia
          | |- context [(?a <=? ?b)%N] =>
              destruct (N.leb_spec a b); try lia
          end).

(** The character read at the head of the bytes [Json.utf8] writes for a
    code point is that code point, on all the bytes written. *)
Lemma decode_head_utf8 u rest :
  (u <= 1114111)%N ->
  PyStr.decode_head (Json.utf8 u ++ rest)
  = Some (u, List.length (Json.utf8 u)).
Proof.
  intros Hu. unfold Json.utf8.
  pose proof (N.div_mod' u 64) as E1.
  pose proof (N.mod_lt u 64 ltac:(discriminate)) as M1.
  pose proof (N.div_mod' (u / 64) 64) as E2.
  pose proof (N.mod_lt (u / 64) 64 ltac:(discriminate)) as M2.
  pose proof (N.div_mod' (u / 64 / 64) 64) as E3.
  pose proof (N.mod_lt (u / 64 / 64) 64 ltac:(discriminate)) as M3.
  replace (u / 4096)%N with (u / 64 / 64)%N
    by (rewrite N.Div0.div_div; reflexivity).
  replace (u / 262144)%N with (u / 64 / 64 / 64)%N
    by (rewrite !N.Div0.div_div; reflexivity).
  generalize dependent (u / 64 / 64 / 64)%N. intros d3.
  generalize dependent ((u / 64 / 64) mod 64)%N. intros m3.
  generalize dependent (u / 64 / 64)%N. intros d2.
  generalize dependent ((u / 64) mod 64)%N. intros m2.
  generalize dependent (u / 64)%N. intros d1.
  generalize dependent (u mod 64)%N. intros m1.
  intros E1 M1 E2 M2 E3 M3.
  destruct (N.ltb_spec u 128); [|destruct (N.ltb_spec u 2048);
                                  [|destruct (N.ltb_spec u 65536)]];
    cbn [app List.length PyStr.decode_head];
    unfold PyStr.char_len, PyStr.lead_bits, PyStr.is_cont.
  all: split_ltb.
  all: cbn [andb]; do 2 f_equal; lia.
Qed.

Lemma utf8_not_nil u : Json.utf8 u <> [].
Proof.
  unfold Json.utf8.
  destruct (u <? 128)%N; [discriminate|].
  destruct (u <? 2048)%N; [discriminate|].
  destruct (u <? 65536)%N; discriminate.
Qed.

Lemma space_len_utf8 u rest :
  (u <= 1114111)%N ->
  PyStr.space_len (Json.utf8 u ++ rest)
  = if PyStr.is_space u then List.length (Json.utf8 u) else 0.
Proof.
  intros Hu. unfold PyStr.space_len. rewrite (decode_head_utf8 u rest Hu).
  reflexivity.
Qed.

Lemma is_space_bound u : PyStr.is_space u = true -> (u <= 1114111)%N.
Proof.
  unfold PyStr.is_space. rewrite !orb_true_iff, !andb_true_iff, !N.eqb_eq,
    !N.leb_le. lia.
Qed.

(** A white-space character at the head of a text is stripped, whatever
    its width in bytes; any other character stays, and the text with it. *)
Lemma lstrip_utf8 u rest :
  (u <= 1114111)%N ->
  PyStr.lstrip (Json.utf8 u ++ rest)
  = if PyStr.is_space u then PyStr.lstrip rest else Json.utf8 u ++ rest.
Proof.
  intros Hu. rewrite lstrip_step, (space_len_utf8 u rest Hu).
  destruct (PyStr.is_space u); [|reflexivity].
  pose proof (utf8_not_nil u) as Hn.
  destruct (List.length (Json.utf8 u)) as [|k] eqn:E.
  - destruct (Json.utf8 u); [congruence | discriminate].
  - rewrite <- E, skipn_app, Nat.sub_diag, skipn_all. reflexivity.
Qed.

(** Each white-space character is a blank text. *)
Lemma white_space_is_blank u :
  PyStr.is_space u = true -> blank (string_of_list_ascii (Json.utf8 u)) = true.
Proof.
  intros H. apply blank_spec. rewrite list_ascii_of_string_of_list_ascii.
  rewrite <- (app_nil_r (Json.utf8 u)), (lstrip_utf8 u [] (is_space_bound u H)), H.
  reflexivity.
Qed.

(** *** [repr] beyond ASCII *)

(** [repr] copies a printable character and escapes the others by their
    code point: U+00A0, U+200B and U+E0001 are escaped, U+00E9 and U+1F600
    are copied. *)
Lemma repr_beyond_ascii :
  PyStr.repr (String "194" (String "160" "")) = "'\xa0'"
  /\ PyStr.repr (String "226" (String "128" (String "139" ""))) = "'\u200b'"
  /\ PyStr.repr (String "243" (String "160" (String "128" (String "129" ""))))
     = "'\U000e0001'"
  /\ PyStr.repr (String "195" (String "169" ""))
     = String "'" (String "195" (String "169" "'"))
  /\ PyStr.repr (String "240" (String "159" (String "152" (String "128" ""))))
     = String "'" (String "240" (String "159" (String "152"
                                                  (String "128" "'")))).
Proof. repeat split; vm_compute; reflexivity. Qed.

(** X1: the text [llm_client] returns is stripped: stripping it again
    changes nothing, and neither its first nor its last character is white
    space, be it ASCII white space or one of the wider kinds such as
    U+00A0 and U+3000. *)
Theorem llm_client_text_is_stripped :
  forall (sv : services) (message : string) (c : counters) (text : string),
    outcome (llm_client sv message c) = Ok text ->
    PyStr.strip text = text /\
    space_first text = false /\ space_last text = false.
Proof.
  intros sv message c text H. unfold llm_client, outcome in H. cbn in H.
  destruct (completion sv (completions c) message) as [raw|e];
    [|discriminate]. inversion H; subst text. clear H.
  split; [apply strip_idem|].
  unfold space_first, space_last.
  rewrite strip_core, list_ascii_of_string_of_list_ascii.
  rewrite core_head, core_last. split; reflexivity.
Qed.

Lemma llm_client_text_is_stripped_witness :
  PyStr.strip "{}" = "{}" /\
  space_first "{}" = false /\ space_last "{}" = false.
Proof.
  apply (llm_client_text_is_stripped
           (Sample.constant
              (String "194" (String "160" " {} ")
               ++ String "227" (String "128" (String "128" "")))
              (Ok Sample.bmi_result))
           "Tell me a joke" start "{}").
  vm_compute. reflexivity.
Defined.

(** X2: white space around the line typed is ignored: a padded line gets
    the same outcome and, after the event of its reading, the same events
    as the line itself. *)
Theorem padding_is_ignored :
  forall (sv : services) (tools : list Tool) (a line b : string)
         (c : counters),
    blank a = true -> blank b = true ->
    outcome (turn sv tools (a ++ line ++ b)%string c)
    = outcome (turn sv tools line c) /\
    snd (fst (turn sv tools (a ++ line ++ b)%string c))
    = snd (fst (turn sv tools line c)) /\
    exists rest,
      events (turn sv tools (a ++ line ++ b)%string c)
      = Input (a ++ line ++ b)%string :: rest /\
      events (turn sv tools line c) = Input line :: rest.
Proof.
  intros sv tools a line b c Ha Hb. rewrite !turn_eq, (strip_pad a line b Ha Hb).
  destruct (is_exit (PyStr.strip line)).
  - repeat split. eexists. split; reflexivity.
  - destruct (route sv tools (PyStr.strip line) c) as [[r c'] t].
    repeat split. eexists. split; reflexivity.
Qed.

Lemma padding_is_ignored_witness :
  outcome (turn (Sample.constant Sample.use_tool_false (Ok Sample.bmi_result))
                Sample.catalog
                (String "194" (String "160" " ") ++ "Quit" ++ " ")%string
                start)
  = outcome (turn (Sample.constant Sample.use_tool_false
                                   (Ok Sample.bmi_result))
                  Sample.catalog "Quit" start) /\
  snd (fst (turn (Sample.constant Sample.use_tool_false (Ok Sample.bmi_result))
                 Sample.catalog
                 (String "194" (String "160" " ") ++ "Quit" ++ " ")%string
                 start))
  = snd (fst (turn (Sample.constant Sample.use_tool_false
                                    (Ok Sample.bmi_result))
                   Sample.catalog "Quit" start)) /\
  exists rest,
    events (turn (Sample.constant Sample.use_tool_false (Ok Sample.bmi_result))
                 Sample.catalog
                 (String "194" (String "160" " ") ++ "Quit" ++ " ")%string
                 start)
    = Input (String "194" (String "160" " ") ++ "Quit" ++ " ")%string :: rest /\
    events (turn (Sample.constant Sample.use_tool_false (Ok Sample.bmi_result))
                 Sample.catalog "Quit" start)
    = Input "Quit" :: rest.
Proof.
  apply (padding_is_ignored
           (Sample.constant Sample.use_tool_false (Ok Sample.bmi_result))
           Sample.catalog (String "194" (String "160" " ")) "Quit" " " start);
    reflexivity.
Defined.

(** X3: a line of white space only, the empty line included, is no exit
    word and is not skipped: it is routed like any question, with the empty
    text as its query. *)
Theorem blank_line_is_routed :
  forall (sv : services) (tools : list Tool) (line : string) (c : counters),
    blank line = true ->
    turn sv tools line c
    = prepend [Input line] (route sv tools EmptyString c) /\
    exists o rest,
      events (route sv tools EmptyString c)
      = LlmCall (get_router_prompt EmptyString tools) o :: rest.
Proof.
  intros sv tools line c H. rewrite turn_eq, (strip_blank line H).
  split; [reflexivity | apply route_first_event].
Qed.

Lemma blank_line_is_routed_witness :
  turn (Sample.constant Sample.use_tool_false (Ok Sample.bmi_result))
       Sample.catalog "   " start
  = prepend [Input "   "]
            (route (Sample.constant Sample.use_tool_false
                                    (Ok Sample.bmi_result))
                   Sample.catalog EmptyString start) /\
  exists o rest,
    events (route (Sample.constant Sample.use_tool_false
                                   (Ok Sample.bmi_result))
                  Sample.catalog EmptyString start)
    = LlmCall (get_router_prompt EmptyString Sample.catalog) o :: rest.
Proof.
  apply (blank_line_is_routed
           (Sample.constant Sample.use_tool_false (Ok Sample.bmi_result))
           Sample.catalog "   " start).
  reflexivity.
Defined.

(** ** The table of a turn *)

Lemma is_dict_false_get v : is_dict v = false -> py_get v "use_tool" = Raise (no_get v).
Proof. destruct v; simpl; intros H; try reflexivity; discriminate. Qed.

Lemma turn_table sv tools line c :
  turned sv tools line c (turn sv tools line c).
Proof.
  rewrite turn_eq. destruct (is_exit (PyStr.strip line)) eqn:Hx;
    [constructor; exact Hx|].
  rewrite route_eq.
  destruct (completion sv (completions c)
                       (get_router_prompt (PyStr.strip line) tools))
    as [text|e]; [|apply turned_router_down].
  rewrite prepend_prepend. cbn [app].
  destruct (loads (PyStr.strip text)) as [v|] eqn:Hl.
  - destruct (is_dict v) eqn:Hd.
    + apply is_dict_spec in Hd. destruct Hd as [d ->]. cbn [py_get].
      destruct (is_True (dict_get "use_tool" d)) eqn:Hu.
      * apply is_True_spec in Hu. rewrite tool_path_eq.
        destruct (completion sv (completions (llm_done c))
                    (get_tool_selection_prompt (PyStr.strip line) tools))
          as [text2|e] eqn:Hc2;
          [|exact (turned_selection_down sv tools line c _ d e Hl Hu)].
        destruct (is_valid_tool_call_total (PyStr.strip text2) tools)
          as [[|] Hv].
        -- destruct (tool_path_valid sv tools (PyStr.strip line) (llm_done c)
                                     text2 Hc2 Hv)
             as [d2 [nm [args [Hl2 [Ht [Hin [Ha Heq]]]]]]].
           rewrite tool_path_eq, Hc2 in Heq. rewrite Heq.
           cbn [prepend app].
           apply (turned_dispatched sv tools line c _ d (PyStr.strip text2)
                                    (JStr nm) args _ Hl Hu);
             [|reflexivity].
           split; [exact Hv|]. exists d2, nm, args. repeat split; assumption.
        -- rewrite Hv. cbn [prepend app].
           exact (turned_invalid sv tools line c _ d _ Hl Hu Hv).
      * rewrite direct_path_eq.
        destruct (completion sv (completions (llm_done c)) (PyStr.strip line)).
        -- exact (turned_direct sv tools line c _ d _ Hl Hu).
        -- exact (turned_direct_down sv tools line c _ d _ Hl Hu).
    + rewrite (is_dict_false_get v Hd).
      exact (turned_no_object sv tools line c _ v Hl Hd).
  - rewrite fallback_path_eq.
    destruct (completion sv (completions (llm_done c)) (PyStr.strip line)).
    + exact (turned_fallback sv tools line c _ _ Hl).
    + exact (turned_fallback_down sv tools line c _ _ Hl).
Qed.


(** ** Counting the calls *)

Lemma llm_calls_app t1 t2 : llm_calls (t1 ++ t2) = llm_calls t1 ++ llm_calls t2.
Proof. apply filter_app. Qed.

Lemma dispatcher_calls_app t1 t2 :
  dispatcher_calls (t1 ++ t2) = dispatcher_calls t1 ++ dispatcher_calls t2.
Proof. apply filter_app. Qed.

Lemma turn_calls sv tools line c :
  List.length (llm_calls (events (turn sv tools line c))) <= 2 /\
  List.length (dispatcher_calls (events (turn sv tools line c))) <= 1 /\
  (dispatcher_calls (events (turn sv tools line c)) <> [] ->
   List.length (llm_calls (events (turn sv tools line c))) = 2).
Proof.
  destruct (turn_table sv tools line c); cbn; repeat split; try lia;
    intros Hne; congruence.
Qed.

Lemma loop_calls sv tools lines : forall c,
  List.length (llm_calls (events (loop sv tools lines c)))
  <= 2 * List.length lines /\
  List.length (dispatcher_calls (events (loop sv tools lines c)))
  <= List.length lines.
Proof.
  induction lines as [|line rest IH]; intros c; [cbn; lia|].
  rewrite loop_cons. pose proof (turn_calls sv tools line c) as [H1 [H2 _]].
  destruct (turn sv tools line c) as [[[[|]|e] c1] t1];
    cbn [events snd] in H1, H2; cbn [List.length events snd]; try lia.
  rewrite events_prepend, llm_calls_app, dispatcher_calls_app, !length_app.
  destruct (IH c1). cbn [events snd] in *. lia.
Qed.

(** X5: a turn makes at most two calls of the completion service and at
    most one call of the tool service, the latter only after two
    completions; a session on [n] lines makes at most [1 + 2 n] completion
    calls and at most [n] tool calls. *)
Theorem calls_are_bounded :
  forall (sv : services) (tools : list Tool),
    (forall line c,
        List.length (llm_calls (events (turn sv tools line c))) <= 2 /\
        List.length (dispatcher_calls (events (turn sv tools line c))) <= 1 /\
        (dispatcher_calls (events (turn sv tools line c)) <> [] ->
         List.length (llm_calls (events (turn sv tools line c))) = 2))
    /\
    (forall lines c,
        List.length (llm_calls (events (run sv tools lines c)))
        <= 1 + 2 * List.length lines /\
        List.length (dispatcher_calls (events (run sv tools lines c)))
        <= List.length lines).
Proof.
  intros sv tools. split; [intros; apply turn_calls|].
  intros lines c. rewrite run_eq.
  destruct (completion sv (completions c) greeting_prompt) as [text|e];
    [|cbn; lia].
  rewrite events_prepend, llm_calls_app, dispatcher_calls_app, !length_app.
  destruct (loop_calls sv tools lines (llm_done c)). cbn [llm_calls
    dispatcher_calls filter is_llm_call is_tool_call List.length]. lia.
Qed.

(** ** The errors that end a session *)






(** ** The lines a session reads *)

Section Reading.

Variable sv : services.
Variable tools : list Tool.

Lemma inputs_app t1 t2 : inputs (t1 ++ t2) = inputs t1 ++ inputs t2.
Proof.
  induction t1 as [|e t1 IH]; [reflexivity|].
  destruct e; cbn [app inputs]; rewrite IH; reflexivity.
Qed.

Lemma turn_inputs line c : inputs (events (turn sv tools line c)) = [line].
Proof. destruct (turn_table sv tools line c); reflexivity. Qed.

Lemma turn_break line c :
  outcome (turn sv tools line c) = Ok Break <->
  is_exit (PyStr.strip line) = true.
Proof.
  rewrite turn_eq. destruct (is_exit (PyStr.strip line)) eqn:Hx.
  - split; reflexivity.
  - split; [|discriminate]. rewrite outcome_prepend.
    pose proof (turn_table sv tools line c) as T. rewrite turn_eq, Hx in T.
    destruct (route sv tools (PyStr.strip line) c) as [[r c'] t].
    cbn [prepend outcome fst] in *. inversion T; subst; congruence.
Qed.

(** X7: a session reads its lines in order, one a turn, and stops
    reading at the first exit word or the first error: if the loop still
    waits for input, it has read every line and none was an exit word; if
    it left by [break], it has read the lines up to the first exit word and
    none after it; if it was ended by an error, it has read the lines up to
    the one whose turn raised. *)
Theorem lines_are_read_up_to_the_exit lines : forall c,
  match outcome (loop sv tools lines c) with
  | Ok AwaitingInput =>
      inputs (events (loop sv tools lines c)) = lines /\
      forallb goes_on lines = true
  | Ok Exited =>
      exists pre line post,
        lines = pre ++ line :: post /\
        forallb goes_on pre = true /\ goes_on line = false /\
        inputs (events (loop sv tools lines c)) = pre ++ [line]
  | Raise _ =>
      exists pre line post,
        lines = pre ++ line :: post /\
        forallb goes_on (pre ++ [line]) = true /\
        inputs (events (loop sv tools lines c)) = pre ++ [line]
  end.
Proof.
  induction lines as [|line rest IH]; intros c; [cbn; auto|].
  rewrite loop_cons.
  pose proof (turn_inputs line c) as Hi. pose proof (turn_break line c) as Hb.
  destruct (turn sv tools line c) as [[[[|]|e] c1] t1];
    cbn [outcome events fst snd] in Hi, Hb.
  - assert (Hg : goes_on line = true).
    { unfold goes_on. destruct (is_exit (PyStr.strip line)); [|reflexivity].
      destruct Hb as [_ Hb]. specialize (Hb eq_refl). discriminate. }
    specialize (IH c1). rewrite outcome_prepend, events_prepend, inputs_app, Hi.
    destruct (outcome (loop sv tools rest c1)) as [[|]|e].
    + destruct IH as [pre [l [post [-> [Hp [Hl Hin]]]]]].
      exists (line :: pre), l, post. cbn [app forallb]. rewrite Hg, Hp, Hin.
      auto.
    + destruct IH as [-> Hall]. cbn [app forallb]. rewrite Hg, Hall. auto.
    + destruct IH as [pre [l [post [-> [Hp Hin]]]]].
      exists (line :: pre), l, post. cbn [app forallb]. rewrite Hg, Hp, Hin.
      auto.
  - cbn [outcome events fst snd]. exists [], line, rest.
    unfold goes_on. rewrite (proj1 Hb eq_refl), Hi. auto.
  - cbn [outcome events fst snd]. exists [], line, rest.
    cbn [app forallb]. unfold goes_on.
    destruct (is_exit (PyStr.strip line)) eqn:Hx.
    + destruct Hb as [_ Hb]. specialize (Hb eq_refl). discriminate.
    + rewrite Hi. auto.
Qed.

End Reading.

(** ** The validator and the catalog *)

(** X9: a response the validator accepts on a catalog is accepted on every
    catalog that has at least the same tool names; descriptions, schemas,
    order and repetitions play no part. *)
Theorem validator_grows_with_catalog :
  forall (response : string) (tools tools' : list Tool),
    is_valid_tool_call response tools = Ok true ->
    (forall nm, In nm (tool_names tools) -> In nm (tool_names tools')) ->
    is_valid_tool_call response tools' = Ok true.
Proof.
  intros response tools tools' Hv Hincl.
  apply is_valid_tool_call_true in Hv.
  destruct Hv as [d [nm [args [Hl [Ht [Hin Ha]]]]]].
  apply is_valid_tool_call_true. exists d, nm, args.
  repeat split; try assumption. apply Hincl, Hin.
Qed.

Lemma validator_grows_with_catalog_witness :
  is_valid_tool_call
    Sample.bmi_call
    [{| name := "convert"; description := None; inputSchema := JObj [] |};
     {| name := "bmi"; description := None; inputSchema := JNull |}]
  = Ok true.
Proof.
  apply (validator_grows_with_catalog Sample.bmi_call Sample.catalog).
  - vm_compute. reflexivity.
  - simpl. tauto.
Defined.



(** ** The prompts hold what they are built from *)

Lemma string_app_assoc (a b c : string) :
  ((a ++ b) ++ c = a ++ b ++ c)%string.
Proof. induction a as [|x a IH]; simpl; [reflexivity | rewrite IH; reflexivity]. Qed.

Lemma string_app_nil_r (a : string) : (a ++ EmptyString = a)%string.
Proof. induction a as [|x a IH]; simpl; [reflexivity | rewrite IH; reflexivity]. Qed.

Lemma occurs_refl x : occurs x x.
Proof. exists EmptyString, EmptyString. simpl. rewrite string_app_nil_r. reflexivity. Qed.

Lemma occurs_app_l x s a : occurs x s -> occurs x (a ++ s)%string.
Proof.
  intros [p [q ->]]. exists (a ++ p)%string, q. rewrite string_app_assoc.
  reflexivity.
Qed.

Lemma occurs_app_r x s b : occurs x s -> occurs x (s ++ b)%string.
Proof.
  intros [p [q ->]]. exists p, (q ++ b)%string.
  rewrite !string_app_assoc. reflexivity.
Qed.

Lemma occurs_trans x y s : occurs x y -> occurs y s -> occurs x s.
Proof.
  intros [p [q ->]] [a [b ->]]. exists (a ++ p)%string, (q ++ b)%string.
  rewrite !string_app_assoc. reflexivity.
Qed.

Lemma join_occurs sep x l : In x l -> occurs x (PyStr.join sep l).
Proof.
  induction l as [|y l IH]; [contradiction|].
  intros [->|H].
  - destruct l as [|z l]; [apply occurs_refl|].
    cbn [PyStr.join]. apply occurs_app_r, occurs_refl.
  - destruct l as [|z l]; [contradiction|].
    cbn [PyStr.join]. apply occurs_app_l, occurs_app_l, IH, H.
Qed.

Ltac occurs_here :=
  repeat first [ apply occurs_refl
               | apply occurs_app_r; apply occurs_refl
               | apply occurs_app_l ].

(** X11: each prompt holds, as it is, what it is built from: the router
    prompt holds the query and the [repr] of every tool name of the
    catalog; the tool-selection prompt holds the query and, for every tool
    of the catalog, its line of name, description and input schema. *)
Theorem prompts_hold_their_inputs :
  forall (query : string) (tools : list Tool),
    occurs query (get_router_prompt query tools) /\
    occurs query (get_tool_selection_prompt query tools) /\
    (forall tool, In tool tools ->
                  occurs (PyStr.repr (name tool))
                         (get_router_prompt query tools)) /\
    (forall tool, In tool tools ->
                  occurs ("- " ++ name tool ++ ": "
                               ++ str_opt (description tool) ++ ", "
                               ++ py_repr (inputSchema tool))%string
                         (get_tool_selection_prompt query tools)).
Proof.
  intros query tools. unfold get_router_prompt, get_tool_selection_prompt.
  repeat split.
  - occurs_here.
  - occurs_here.
  - intros tool Hin.
    apply occurs_trans with (y := PyStr.repr_list (tool_names tools)).
    + unfold PyStr.repr_list. apply occurs_app_l, occurs_app_r.
      apply join_occurs. apply in_map. unfold tool_names.
      apply in_map, Hin.
    + occurs_here.
  - intros tool Hin.
    apply occurs_trans with (y := PyStr.join PyStr.nl (map tool_line tools)).
    + apply join_occurs. change (In (tool_line tool) (map tool_line tools)).
      apply in_map, Hin.
    + occurs_here.
Qed.

(** ** What is printed after the tool returns *)

(** X12: when the tool called on an accepted request returns, the turn
    prints one message and goes on.  With a text part first in the content,
    the message carries that text and the values of the arguments
    [weight_kg] and [height_m], [None] for one that is missing; further
    parts are not read.  With an empty content, or a first part that is no
    text, the message is the failure notice instead. *)
Theorem tool_result_message :
  forall (sv : services) (tools : list Tool) (query : string) (c : counters)
         (text : string) (d : list (string * value)) (tool : value)
         (args : list (string * value)) (result : tool_result),
    completion sv (completions c) (get_tool_selection_prompt query tools)
    = Ok text ->
    is_valid_tool_call (PyStr.strip text) tools = Ok true ->
    loads (PyStr.strip text) = Some (JObj d) ->
    dict_get "tool" d = Some tool ->
    dict_get "arguments" d = Some (JObj args) ->
    tool_service sv (tool_calls c) tool (JObj args) = Ok result ->
    exists p,
      tool_path sv tools query c
      = (Ok Continue, tool_done (llm_done c),
         [LlmCall (get_tool_selection_prompt query tools)
                  (Ok (PyStr.strip text));
          CallTool tool (JObj args) (Ok result); Print p]) /\
      match content result with
      | TextContent txt :: _ =>
          p = ToolResultLines (dict_get "weight_kg" args)
                              (dict_get "height_m" args) txt
      | [] => p = Line (failure_prefix ++ "list index out of range")%string
      | OtherContent :: _ => exists msg, p = Line (failure_prefix ++ msg)%string
      end.
Proof.
  intros sv tools query c text d tool args result Hc Hv Hl Ht Ha Hs.
  destruct (tool_path_valid sv tools query c text Hc Hv)
    as [d' [nm [args' [Hl' [Ht' [_ [Ha' Heq]]]]]]].
  rewrite Hl in Hl'. inversion Hl'; subst d'.
  rewrite Ht in Ht'. inversion Ht'; subst tool.
  rewrite Ha in Ha'. inversion Ha'; subst args'.
  rewrite Hs in Heq. eexists. split; [exact Heq|].
  unfold dispatch_print, first_part.
  destruct (content result) as [|[txt|] more]; cbn [text_of exn_str];
    [reflexivity | reflexivity | eexists; reflexivity].
Qed.

Lemma tool_result_message_witness :
  exists p,
    tool_path (Sample.scripted [Ok Sample.bmi_call_no_height]
                               (Ok Sample.bmi_result))
              Sample.catalog "What is my BMI?" start
    = (Ok Continue, tool_done (llm_done start),
       [LlmCall (get_tool_selection_prompt "What is my BMI?" Sample.catalog)
                (Ok Sample.bmi_call_no_height);
        CallTool (JStr "bmi") (JObj [("weight_kg", JInt 70)])
                 (Ok Sample.bmi_result);
        Print p]) /\
    p = ToolResultLines (Some (JInt 70)) None "22.86".
Proof.
  apply (tool_result_message
           (Sample.scripted [Ok Sample.bmi_call_no_height]
                            (Ok Sample.bmi_result))
           Sample.catalog "What is my BMI?" start Sample.bmi_call_no_height
           [("tool", JStr "bmi"); ("arguments", JObj [("weight_kg", JInt 70)])]
           (JStr "bmi") [("weight_kg", JInt 70)] Sample.bmi_result);
    vm_compute; reflexivity.
Defined.
